(** * Symptom triage pipeline: extraction, disease matching, severity escalation

    A shallow embedding of [app/nlp_processor.py], [app/disease_predictor.py],
    [app/severity_manager.py] and of the symptom cleaning of [app/utils.py],
    followed by the properties of the pipeline that the specification
    states.

    Conventions of the embedding:
    - a Python [str] is a sequence of Unicode code points ([str], below);
    - a Python [float] score is a rational number: every finite binary64
      value is a rational, and [<], [>] on finite floats agree with the order
      of the rationals.  A decimal literal of the source denotes the binary64
      value nearest to it, which is the rational that the comparison uses
      ([float_0_1], [float_0_3]); arithmetic on floats, which rounds, does
      not occur in the functions embedded;
    - exceptions are values of [exn]; a computation that may raise returns a
      [result];
    - code that prints, reads files or calls scikit-learn runs in the monad
      [M], which threads a [world];
    - spaCy, [re] and scikit-learn are interfaces ([NlpEnv], [Sklearn]):
      the development holds for every implementation of them.  A call of
      the spaCy pipeline may raise.  Where a statement is about calls in a
      row, the predictor is an object in memory and scikit-learn has a
      state of its own ([SklearnState], [Runtime]). *)

From Stdlib Require Import List Bool Arith NArith ZArith QArith Lia.
From Stdlib Require Import Permutation Sorted.
From Stdlib.Strings Require Import Byte.
Import ListNotations.

Set Implicit Arguments.

(* ===================================================================== *)
(** ** Python strings *)
(* ===================================================================== *)

Definition codepoint := N.

Record str : Type := Str { chars : list codepoint }.

(** Source literals are UTF-8 text; [utf8_decode] reads the code points. *)
Fixpoint utf8_decode (fuel : nat) (bs : list N) : list codepoint :=
  match fuel with
  | O => []
  | S fuel =>
    match bs with
    | [] => []
    | b0 :: r0 =>
      if (b0 <? 128)%N then b0 :: utf8_decode fuel r0
      else if (b0 <? 224)%N then
        match r0 with
        | b1 :: r1 => ((b0 - 192) * 64 + (b1 - 128))%N :: utf8_decode fuel r1
        | _ => [b0]
        end
      else if (b0 <? 240)%N then
        match r0 with
        | b1 :: b2 :: r2 =>
            ((b0 - 224) * 4096 + (b1 - 128) * 64 + (b2 - 128))%N
              :: utf8_decode fuel r2
        | _ => [b0]
        end
      else
        match r0 with
        | b1 :: b2 :: b3 :: r3 =>
            ((b0 - 240) * 262144 + (b1 - 128) * 4096
             + (b2 - 128) * 64 + (b3 - 128))%N :: utf8_decode fuel r3
        | _ => [b0]
        end
    end
  end.

Definition utf8_encode1 (c : codepoint) : list N :=
  if (c <? 128)%N then [c]
  else if (c <? 2048)%N then [192 + c / 64; 128 + c mod 64]%N
  else if (c <? 65536)%N then
    [224 + c / 4096; 128 + (c / 64) mod 64; 128 + c mod 64]%N
  else [240 + c / 262144; 128 + (c / 4096) mod 64;
        128 + (c / 64) mod 64; 128 + c mod 64]%N.

Definition str_of_bytes (bs : list byte) : str :=
  Str (utf8_decode (List.length bs) (map Byte.to_N bs)).

Definition bytes_of_str (s : str) : option (list byte) :=
  fold_right (fun n acc => match Byte.of_N n, acc with
                           | Some b, Some l => Some (b :: l)
                           | _, _ => None
                           end)
             (Some []) (flat_map utf8_encode1 (chars s)).

Declare Scope str_scope.
Delimit Scope str_scope with str.
Bind Scope str_scope with str.
String Notation str str_of_bytes bytes_of_str : str_scope.
Open Scope str_scope.

(** [a + b] on strings. *)
Definition str_add (a b : str) : str := Str (chars a ++ chars b).
Infix "+s+" := str_add (at level 60, right associativity) : str_scope.

(** [len(s)]. *)
Definition len (s : str) : nat := List.length (chars s).

(** [a == b] on strings. *)
Fixpoint chars_eqb (a b : list codepoint) : bool :=
  match a, b with
  | [], [] => true
  | x :: a', y :: b' => N.eqb x y && chars_eqb a' b'
  | _, _ => false
  end.

Definition str_eqb (a b : str) : bool := chars_eqb (chars a) (chars b).

(** [x in l] for a list (or set) of strings. *)
Definition str_in_list (x : str) (l : list str) : bool := existsb (str_eqb x) l.

(** [sub in s] for two strings: substring search. *)
Fixpoint starts_with (p s : list codepoint) : bool :=
  match p, s with
  | [], _ => true
  | x :: p', y :: s' => N.eqb x y && starts_with p' s'
  | _ :: _, [] => false
  end.

Fixpoint chars_contains (p s : list codepoint) : bool :=
  starts_with p s ||
  match s with
  | [] => false
  | _ :: s' => chars_contains p s'
  end.

Definition str_contains (sub s : str) : bool :=
  chars_contains (chars sub) (chars s).

(** [s.lower()], for text of the Basic Latin and Latin-1 Supplement
    blocks.  On a string whose code points are all below U+0100 the function
    is Python's: A-Z, and À-Þ except the multiplication sign, go down by 32,
    no other character of the two blocks changes, and no rule of context
    applies.  These blocks hold every letter of the French tables of the
    source.  Python also lowers the letters of the other blocks (Greek,
    Cyrillic, the Kelvin sign, ...), two of them by rules that are not
    character by character: the capital sigma by its place in the word, and
    the dotted capital I into two code points.  The function leaves every
    code point from U+0100 on as it is, so that for text with such letters
    it is an approximation of [str.lower]. *)
Definition lower_char (c : codepoint) : codepoint :=
  if ((65 <=? c) && (c <=? 90))%N then (c + 32)%N
  else if ((192 <=? c) && (c <=? 222) && negb (c =? 215))%N then (c + 32)%N
  else c.

Definition lower (s : str) : str := Str (map lower_char (chars s)).

(** [sep.join(parts)]. *)
Fixpoint join (sep : str) (parts : list str) : str :=
  match parts with
  | [] => ""
  | [p] => p
  | p :: rest => p +s+ sep +s+ join sep rest
  end.

(* ===================================================================== *)
(** ** Python values, exceptions, results *)
(* ===================================================================== *)

(** The values a caller can pass where the source expects [text]. *)
#[warnings="-register-all"]
Inductive pyval : Type :=
| PyNone
| PyBool (b : bool)
| PyInt (z : Z)
| PyStr (s : str)
| PyList (l : list pyval).

(** Truth value of an object, as [not text] tests it. *)
Definition truthy (v : pyval) : bool :=
  match v with
  | PyNone => false
  | PyBool b => b
  | PyInt z => negb (Z.eqb z 0)
  | PyStr s => negb (Nat.eqb (len s) 0)
  | PyList l => negb (Nat.eqb (List.length l) 0)
  end.

(** [isinstance(v, str)]. *)
Definition isinstance_str (v : pyval) : bool :=
  match v with PyStr _ => true | _ => false end.

Inductive exn_kind : Type :=
| FileNotFoundError
| JSONDecodeError
| AttributeError
| TypeError
| ValueError
| IndexError.

Record exn : Type := Exn { kind : exn_kind; message : str }.

Inductive result (A : Type) : Type :=
| Ok (a : A)
| Raise (e : exn).
Arguments Ok {A} a.
Arguments Raise {A} e.

(** [v.lower()]: only strings have the method among the values of [pyval]. *)
Definition method_lower (v : pyval) : result str :=
  match v with
  | PyStr s => Ok (lower s)
  | _ => Raise (Exn AttributeError "object has no attribute 'lower'")
  end.

(* ===================================================================== *)
(** ** Dictionaries in insertion order, and the knowledge-base file *)
(* ===================================================================== *)

(** A [dict] keeps its keys in insertion order; assigning to a key that is
    present replaces the value in place. *)
Definition pydict (V : Type) : Type := list (str * V).

Fixpoint dict_set {V} (k : str) (v : V) (d : pydict V) : pydict V :=
  match d with
  | [] => [(k, v)]
  | (k', v') :: d' =>
      if str_eqb k k' then (k', v) :: d' else (k', v') :: dict_set k v d'
  end.

Definition keys {V} (d : pydict V) : list str := map fst d.

Definition items {V} (d : pydict V) : list (str * V) := d.

(** One entry of [data/symptoms_diseases.json]; a field that the object
    lacks is [None]. *)
Record DiseaseRecord : Type := {
  symptoms : option (list str);
  severity : option str;
  advice : option str;
  description : option str
}.

(** What a path holds: text that is not JSON, or a JSON object given by its
    members in file order (a repeated member name overwrites, as
    [json.load] does). *)
Inductive file_body : Type :=
| Malformed
| JsonObject (members : list (str * DiseaseRecord)).

Definition json_object {V} (members : list (str * V)) : pydict V :=
  fold_left (fun d kv => dict_set (fst kv) (snd kv) d) members [].

(* ===================================================================== *)
(** ** The world and the monad of effectful code *)
(* ===================================================================== *)

(** Calls into scikit-learn, recorded in the order they are made. *)
Inductive sk_call : Type :=
| CallFitTransform (docs : list str)
| CallTransform (docs : list str)
| CallCosineSimilarity.

Record world : Type := World {
  files : str -> option file_body;
  stdout : list str;
  sk_calls : list sk_call
}.

Definition M (A : Type) : Type := world -> result A * world.

Definition ret {A} (a : A) : M A := fun w => (Ok a, w).

Definition raise {A} (e : exn) : M A := fun w => (Raise e, w).

Definition bind {A B} (m : M A) (k : A -> M B) : M B :=
  fun w => match m w with
           | (Ok a, w') => k a w'
           | (Raise e, w') => (Raise e, w')
           end.

(** [try: body except Exception as e: handler e]. *)
Definition try_except {A} (body : M A) (handler : exn -> M A) : M A :=
  fun w => match body w with
           | (Ok a, w') => (Ok a, w')
           | (Raise e, w') => handler e w'
           end.

Declare Scope monad_scope.
Delimit Scope monad_scope with monad.
Notation "x <- m ;; k" := (bind m (fun x => k))
  (at level 61, m at next level, right associativity) : monad_scope.
Notation "m ;;; k" := (bind m (fun _ => k))
  (at level 61, right associativity) : monad_scope.
Open Scope monad_scope.

(** [print(line)]. *)
Definition print (line : str) : M unit :=
  fun w => (Ok tt, World (files w) (stdout w ++ [line]) (sk_calls w)).

(** [os.path.exists(path)]. *)
Definition os_path_exists (path : str) : M bool :=
  fun w => (Ok (match files w path with Some _ => true | None => false end), w).

(** [with open(path) as f: json.load(f)]. *)
Definition open_json_load (path : str) : M (pydict DiseaseRecord) :=
  fun w => match files w path with
           | None => (Raise (Exn FileNotFoundError
                               ("No such file or directory: " +s+ path)), w)
           | Some Malformed => (Raise (Exn JSONDecodeError "Expecting value"), w)
           | Some (JsonObject members) => (Ok (json_object members), w)
           end.

(** Lifting a library call: the call is recorded, its outcome returned. *)
Definition sk_lift {A} (c : sk_call) (r : result A) : M A :=
  fun w => (r, World (files w) (stdout w) (sk_calls w ++ [c])).

(* ===================================================================== *)
(** ** app/nlp_processor.py *)
(* ===================================================================== *)

(** A spaCy token, with the attributes the source reads. *)
Record Token : Type := {
  text : str;
  lemma_ : str;
  is_stop : bool;
  is_punct : bool;
  is_alpha : bool
}.

(** The text libraries of [NLPProcessor]: the loaded spaCy pipeline
    [self.nlp], the character classes [\w] and [\s] of [re], and
    [re.search(pattern, s, re.IGNORECASE)] as a test.  A call of the
    pipeline may raise: spaCy refuses, with [ValueError], a text longer
    than [nlp.max_length] (1,000,000 characters unless configured). *)
Class NlpEnv : Type := {
  nlp : str -> result (list Token);
  re_word : codepoint -> bool;
  re_space : codepoint -> bool;
  re_search_ignorecase : str -> str -> bool
}.

Module NLPProcessor.

(** [self.medical_terms]. *)
Definition medical_terms : list str :=
  [ "gorge"; "fièvre"; "toux"; "fatigue"; "nez"; "courbature";
    "tête"; "nausée"; "vomissement"; "douleur"; "mal"; "frisson";
    "éternuement"; "rhume"; "grippe"; "angine"; "migraine"; "gastro";
    "diarrhée"; "respiration"; "allergie"; "démangeaison"; "yeux";
    "abdominal"; "facial"; "sinus"; "blocage"; "ganglion"; "enrouement";
    "oreille"; "audition"; "thoracique"; "saignement"; "paralysie";
    "convulsion"; "brûlure"; "urinaire"; "articulation"; "raideur";
    "essoufflement"; "oppression"; "sifflement"; "transpiration";
    "vertige"; "étourdissement"; "palpitation"; "crampe"; "engourdissement";
    "picotement"; "faiblesse"; "perte"; "vision"; "auditif"; "olfactif";
    "goût"; "équilibre"; "coordination"; "mémoire"; "concentration";
    "sommeil"; "appétit"; "soif"; "urine"; "selles"; "constipation";
    "ballonnement"; "flatulence"; "brûlure"; "reflux"; "acidité";
    "plaie"; "coupure"; "ecchymose"; "gonflement"; "rougeur"; "chaleur";
    "démangeaison"; "desquamation"; "bouton"; "éruption"; "rougeole";
    "varicelle"; "urticaire"; "eczéma"; "psoriasis" ].

(** The letters that the cleaning pattern keeps besides [\w] and [\s]. *)
Definition kept_letters : list codepoint := chars "àâäéèêëîïôöùûüç".

(** [re.sub(r'[^\w\s...]', ' ', s)]: every other character becomes a
    space. *)
Definition clean_char `{NlpEnv} (c : codepoint) : codepoint :=
  if re_word c || re_space c || existsb (N.eqb c) kept_letters
  then c else 32%N.

Definition re_sub_clean `{NlpEnv} (s : str) : str :=
  Str (map clean_char (chars s)).

(** The loop of [preprocess_text] over the tokens of the document. *)
Fixpoint keep_lemmas (doc : list Token) : list str :=
  match doc with
  | [] => []
  | token :: rest =>
      if negb (is_stop token) && negb (is_punct token)
         && is_alpha token && Nat.ltb 1 (len (text token))
      then lower (lemma_ token) :: keep_lemmas rest
      else keep_lemmas rest
  end.

Definition preprocess_text `{NlpEnv} (text : pyval) : result (list str) :=
  if negb (truthy text) || negb (isinstance_str text) then Ok []
  else
    match text with
    | PyStr s =>
        match nlp (re_sub_clean (lower s)) with
        | Ok doc => Ok (keep_lemmas doc)
        | Raise e => Raise e
        end
    | _ => Ok []
    end.

(** [medical_patterns], in the order of the dictionary literal. *)
Definition medical_patterns : pydict (list str) :=
  [ ("mal de gorge", ["gorge"; "mal"]);
    ("nez qui coule", ["nez"; "couler"]);
    ("nez bouché", ["nez"; "bouché"]);
    ("maux de tête", ["tête"; "mal"; "migraine"]);
    ("courbatures", ["courbature"]);
    ("nausées", ["nausée"]);
    ("vomissements", ["vomissement"]);
    ("fièvre", ["fièvre"]);
    ("toux", ["toux"]);
    ("fatigue", ["fatigue"]);
    ("difficulté à respirer", ["respiration"; "difficulté"; "essoufflement"]);
    ("essoufflement", ["essoufflement"]);
    ("oppression thoracique", ["oppression"; "thoracique"]);
    ("douleur thoracique", ["thoracique"; "douleur"]);
    ("yeux qui piquent", ["yeux"; "piquer"]);
    ("démangeaisons", ["démangeaison"]);
    ("douleur abdominale", ["abdominal"; "douleur"]);
    ("douleur faciale", ["facial"; "douleur"]);
    ("frissons", ["frisson"]);
    ("diarrhée", ["diarrhée"]);
    ("ganglions", ["ganglion"]);
    ("enrouement", ["enrouement"]);
    ("perte de voix", ["voix"; "perte"]);
    ("douleur oreille", ["oreille"; "douleur"]);
    ("baisse audition", ["audition"; "baisse"]);
    ("saignement abondant", ["saignement"; "abondant"]);
    ("paralysie", ["paralysie"]);
    ("crise convulsive", ["convulsive"; "crise"]);
    ("brûlure grave", ["brûlure"; "grave"]);
    ("brûlures urinaires", ["urinaire"; "brûlure"]);
    ("douleur articulation", ["articulation"; "douleur"]);
    ("raideur", ["raideur"]);
    ("vertiges", ["vertige"]);
    ("étourdissements", ["étourdissement"]);
    ("palpitations", ["palpitation"]);
    ("transpiration excessive", ["transpiration"; "excessive"]);
    ("perte de conscience", ["conscience"; "perte"]);
    ("trouble de la vision", ["vision"; "trouble"]);
    ("trouble de l'équilibre", ["équilibre"; "trouble"]) ].

(** [regex_patterns], in the order of the dictionary literal. *)
Definition regex_patterns : pydict str :=
  [ ("température.*?(\d+[.,]?\d*)", "fièvre");
    ("fièvre.*?(\d+[.,]?\d*)", "fièvre avec température");
    ("depuis.*?(\d+).*?(heure|jour|semaine)", "durée spécifiée");
    ("douleur.*?(forte|sévère|intense)", "douleur sévère");
    ("douleur.*?(légère|modérée)", "douleur modérée") ].

Definition symptom_map : pydict str :=
  [ ("fièvre", "fièvre");
    ("toux", "toux");
    ("fatigue", "fatigue");
    ("nausée", "nausées");
    ("vomissement", "vomissements");
    ("frisson", "frissons");
    ("diarrhée", "diarrhée");
    ("démangeaison", "démangeaisons");
    ("courbature", "courbatures");
    ("vertige", "vertiges");
    ("palpitation", "palpitations") ].

(** [d.get(k, default)]. *)
Fixpoint dict_get {V} (d : pydict V) (k : str) (default : V) : V :=
  match d with
  | [] => default
  | (k', v) :: d' => if str_eqb k k' then v else dict_get d' k default
  end.

Definition get_symptom_name_from_token (token : str) : str :=
  dict_get symptom_map token token.

(** Step 1: the literal phrases found in the lowercased text. *)
Definition direct_matches (text_lower : str) (detected : list str) : list str :=
  fold_left
    (fun acc pattern =>
       if str_contains pattern text_lower then acc ++ [pattern] else acc)
    (keys medical_patterns) detected.

(** Step 2: every keyword of a phrase occurs inside some token. *)
Definition token_matches (tokens : list str) (detected : list str) : list str :=
  fold_left
    (fun acc entry =>
       let '(pattern, keywords) := entry in
       if negb (str_in_list pattern acc) then
         if forallb (fun keyword =>
                       existsb (fun token => str_contains keyword token) tokens)
                    keywords
         then acc ++ [pattern] else acc
       else acc)
    (items medical_patterns) detected.

(** Step 3: isolated medical terms. *)
Definition term_matches (tokens : list str) (detected : list str) : list str :=
  fold_left
    (fun acc token =>
       if str_in_list token medical_terms then
         let symptom_name := get_symptom_name_from_token token in
         if negb (Nat.eqb (len symptom_name) 0)
            && negb (str_in_list symptom_name acc)
         then acc ++ [symptom_name] else acc
       else acc)
    tokens detected.

(** Step 4: the regular expressions. *)
Definition regex_matches `{NlpEnv} (text_lower : str) (detected : list str)
  : list str :=
  fold_left
    (fun acc entry =>
       let '(pattern, symptom) := entry in
       if re_search_ignorecase pattern text_lower then
         if negb (str_in_list symptom acc) then acc ++ [symptom] else acc
       else acc)
    (items regex_patterns) detected.

(** [list(set(l))]: one copy of each label.  The order in which a Python
    set is listed is not specified; the order chosen here is one of the
    possible ones and no statement below depends on it. *)
Fixpoint list_set (l : list str) : list str :=
  match l with
  | [] => []
  | x :: l' => if str_in_list x l' then list_set l' else x :: list_set l'
  end.

Definition extract_symptoms `{NlpEnv} (text : pyval) : result (list str) :=
  if negb (truthy text) then Ok []
  else
    match preprocess_text text with
    | Raise e => Raise e
    | Ok tokens =>
        let detected_symptoms := [] in
        match method_lower text with
        | Raise e => Raise e
        | Ok text_lower =>
            let detected_symptoms :=
              direct_matches text_lower detected_symptoms in
            let detected_symptoms := token_matches tokens detected_symptoms in
            let detected_symptoms := term_matches tokens detected_symptoms in
            let detected_symptoms :=
              regex_matches text_lower detected_symptoms in
            Ok (list_set detected_symptoms)
        end
    end.

End NLPProcessor.

(* ===================================================================== *)
(** ** app/disease_predictor.py *)
(* ===================================================================== *)

(** The literals [0.1] and [0.3] of the source, as the binary64 values they
    denote: 0.1 is 3602879701896397 / 2^55, a little above 1/10, and 0.3 is
    5404319552844595 / 2^54, a little below 3/10. *)
Definition float_0_1 : Q := 3602879701896397 # 36028797018963968.

Definition float_0_3 : Q := 5404319552844595 # 18014398509481984.

(** [x < y] on scores, as a test. *)
Definition Qltb (x y : Q) : bool :=
  match x ?= y with
  | Lt => true
  | _ => false
  end.

(** scikit-learn, as [DiseasePredictor] uses it: a [TfidfVectorizer] that
    is fitted once ([fit_transform] returns the fitted vectorizer and the
    document matrix), [transform] on a fitted vectorizer, and
    [cosine_similarity] of two matrices as rows of scores.  Each call may
    raise. *)
Class Sklearn : Type := {
  sk_vectorizer : Type;
  sk_matrix : Type;
  fit_transform : list str -> result (sk_vectorizer * sk_matrix);
  transform : sk_vectorizer -> list str -> result sk_matrix;
  cosine_similarity : sk_matrix -> sk_matrix -> result (list (list Q))
}.

(** [l.sort(key=key, reverse=True)].  Python's sort is stable, also with
    [reverse=True]: elements with equal keys keep their order.  A stable
    sort has one possible result, which insertion from the right computes:
    an element goes in front of the first element whose key is not
    greater. *)
Fixpoint insert_reverse {A} (key : A -> Q) (x : A) (l : list A) : list A :=
  match l with
  | [] => [x]
  | y :: l' =>
      if Qltb (key x) (key y) then y :: insert_reverse key x l'
      else x :: y :: l'
  end.

Definition sort_reverse {A} (key : A -> Q) (l : list A) : list A :=
  fold_right (insert_reverse key) [] l.

Module DiseasePredictor.

Record t `{Sklearn} : Type := {
  disease_data : pydict DiseaseRecord;
  diseases : list str;
  symptom_descriptions : list str;
  vectorizer : sk_vectorizer;
  symptom_vectors : sk_matrix
}.

(** [data.get('symptoms', [])]. *)
Definition get_symptoms (data : DiseaseRecord) : list str :=
  match symptoms data with
  | Some l => l
  | None => []
  end.

(** [__init__(self, data_path)]. *)
Definition init `{Sklearn} (data_path : str) : M t :=
  present <- os_path_exists data_path ;;
  if negb present then
    raise (Exn FileNotFoundError ("Fichier " +s+ data_path +s+ " non trouvé"))
  else
    disease_data <- open_json_load data_path ;;
    let diseases := keys disease_data in
    let symptom_descriptions :=
      map (fun entry => join " " (get_symptoms (snd entry)))
          (items disease_data) in
    fitted <- sk_lift (CallFitTransform symptom_descriptions)
                      (fit_transform symptom_descriptions) ;;
    ret {| disease_data := disease_data;
           diseases := diseases;
           symptom_descriptions := symptom_descriptions;
           vectorizer := fst fitted;
           symptom_vectors := snd fitted |}.

(** [similarities[0]]. *)
Definition first_row (similarities : list (list Q)) : M (list Q) :=
  match similarities with
  | row :: _ => ret row
  | [] => raise (Exn IndexError "index 0 is out of bounds")
  end.

(** [predict_diseases(self, user_symptoms)]. *)
Definition predict_diseases `{Sklearn} (self : t) (user_symptoms : list str)
  : M (list (str * Q)) :=
  match user_symptoms with
  | [] => ret []
  | _ :: _ =>
      let user_text := join " " user_symptoms in
      try_except
        (user_vector <- sk_lift (CallTransform [user_text])
                                (transform (vectorizer self) [user_text]) ;;
         similarities <- sk_lift CallCosineSimilarity
                           (cosine_similarity user_vector
                                              (symptom_vectors self)) ;;
         row <- first_row similarities ;;
         let disease_scores := combine (diseases self) row in
         let filtered_scores :=
           filter (fun ds => Qltb float_0_1 (snd ds)) disease_scores in
         let filtered_scores := sort_reverse snd filtered_scores in
         ret (firstn 5 filtered_scores))
        (fun e =>
           print ("Erreur lors de la prédiction: " +s+ message e) ;;;
           ret [])
  end.

(** The empty dictionary [{}], as a knowledge-base entry without fields. *)
Definition empty_record : DiseaseRecord :=
  {| symptoms := None; severity := None;
     advice := None; description := None |}.

(** [get_disease_info(self, disease_name)]. *)
Definition get_disease_info `{Sklearn} (self : t) (disease_name : str)
  : DiseaseRecord :=
  NLPProcessor.dict_get (disease_data self) disease_name empty_record.

(** [get_all_diseases(self)]. *)
Definition get_all_diseases `{Sklearn} (self : t) : list str :=
  diseases self.

End DiseasePredictor.

(* ===================================================================== *)
(** ** app/disease_predictor.py, with the objects in memory *)
(* ===================================================================== *)

(** The module above hands [predict_diseases] its predictor as a value and
    the library as functions of their arguments.  In the running program
    the predictor is an object whose attributes can be rebound, and
    scikit-learn keeps memory of its own between calls: the contents of the
    fitted vectorizer and of the matrices, its settings, its caches.  A
    call of the library reads that memory and may change it.  The class
    and the module below embed the same method with this memory made
    explicit, so that a statement about two calls in a row can fail. *)
Class SklearnState `{Sklearn} : Type := {
  sk_state : Type;
  state_transform :
    sk_vectorizer -> list str -> sk_state -> result sk_matrix * sk_state;
  state_cosine_similarity :
    sk_matrix -> sk_matrix -> sk_state -> result (list (list Q)) * sk_state
}.

Module Runtime.

(** What a call of a method sees and may change: the attributes of the
    predictor object, the memory of the library, and the outside world. *)
Record memory `{SklearnState} : Type := Memory {
  self : DiseasePredictor.t;
  library : sk_state;
  os : world
}.

Definition R `{SklearnState} (A : Type) : Type :=
  memory -> result A * memory.

Definition ret `{SklearnState} {A} (a : A) : R A := fun m => (Ok a, m).

Definition raise `{SklearnState} {A} (e : exn) : R A :=
  fun m => (Raise e, m).

Definition bind `{SklearnState} {A B} (c : R A) (k : A -> R B) : R B :=
  fun m => match c m with
           | (Ok a, m') => k a m'
           | (Raise e, m') => (Raise e, m')
           end.

Definition try_except `{SklearnState} {A} (body : R A)
  (handler : exn -> R A) : R A :=
  fun m => match body m with
           | (Ok a, m') => (Ok a, m')
           | (Raise e, m') => handler e m'
           end.

Declare Scope runtime_scope.
Notation "x <- c ;; k" := (bind c (fun x => k))
  (at level 61, c at next level, right associativity) : runtime_scope.
Notation "c ;;; k" := (bind c (fun _ => k))
  (at level 61, right associativity) : runtime_scope.
Local Open Scope runtime_scope.

(** [self.name]: the attribute as it is in memory when it is read. *)
Definition attribute `{SklearnState} {A} (name : DiseasePredictor.t -> A)
  : R A :=
  fun m => (Ok (name (self m)), m).

(** A call into scikit-learn: it is recorded, runs on the memory of the
    library and leaves it as the library decides.  The library holds no
    reference to the predictor, whose attributes it cannot rebind. *)
Definition call `{SklearnState} {A} (c : sk_call)
  (f : sk_state -> result A * sk_state) : R A :=
  fun m =>
    (fst (f (library m)),
     {| self := self m;
        library := snd (f (library m));
        os := World (files (os m)) (stdout (os m)) (sk_calls (os m) ++ [c])
     |}).

(** [print(line)]. *)
Definition print `{SklearnState} (line : str) : R unit :=
  fun m =>
    (Ok tt,
     {| self := self m;
        library := library m;
        os := World (files (os m)) (stdout (os m) ++ [line]) (sk_calls (os m))
     |}).

(** [similarities[0]]. *)
Definition first_row `{SklearnState} (similarities : list (list Q))
  : R (list Q) :=
  match similarities with
  | row :: _ => ret row
  | [] => raise (Exn IndexError "index 0 is out of bounds")
  end.

(** [predict_diseases(self, user_symptoms)]; each [self.name] is read where
    the source evaluates it. *)
Definition predict_diseases `{SklearnState} (user_symptoms : list str)
  : R (list (str * Q)) :=
  match user_symptoms with
  | [] => ret []
  | _ :: _ =>
      let user_text := join " " user_symptoms in
      try_except
        (vectorizer <- attribute DiseasePredictor.vectorizer ;;
         user_vector <- call (CallTransform [user_text])
                             (state_transform vectorizer [user_text]) ;;
         symptom_vectors <- attribute DiseasePredictor.symptom_vectors ;;
         similarities <- call CallCosineSimilarity
                              (state_cosine_similarity user_vector
                                                       symptom_vectors) ;;
         diseases <- attribute DiseasePredictor.diseases ;;
         row <- first_row similarities ;;
         let disease_scores := combine diseases row in
         let filtered_scores :=
           filter (fun ds => Qltb float_0_1 (snd ds)) disease_scores in
         let filtered_scores := sort_reverse snd filtered_scores in
         ret (firstn 5 filtered_scores))
        (fun e =>
           print ("Erreur lors de la prédiction: " +s+ message e) ;;;
           ret [])
  end.

End Runtime.

(** One call of the library takes its memory from [h] to [h']. *)
Inductive library_step `{SklearnState} : sk_state -> sk_state -> Prop :=
| step_transform (v : sk_vectorizer) (docs : list str) (h : sk_state) :
    library_step h (snd (state_transform v docs h))
| step_cosine_similarity (a b : sk_matrix) (h : sk_state) :
    library_step h (snd (state_cosine_similarity a b h)).

(** The fitted vector space is unchanged by the calls: whatever a call does
    to the memory of the library, [transform] and [cosine_similarity]
    answer afterwards as they did before. *)
Definition calls_keep_answers `{SklearnState} : Prop :=
  forall h h',
    library_step h h' ->
    (forall v docs,
        fst (state_transform v docs h') = fst (state_transform v docs h)) /\
    (forall a b,
        fst (state_cosine_similarity a b h')
        = fst (state_cosine_similarity a b h)).

(* ===================================================================== *)
(** ** app/severity_manager.py *)
(* ===================================================================== *)

(** The line break of the string literals. *)
Definition nl : str := Str [10%N].

Module SeverityManager.

Record t : Type := {
  urgent_symptoms : pydict str;
  disease_data : pydict DiseaseRecord
}.

(** The table that [__init__] assigns to [self.urgent_symptoms]. *)
Definition urgent_table : pydict str :=
  [ ("difficulté à respirer", "URGENT");
    ("douleur thoracique", "URGENT");
    ("saignement abondant", "URGENT");
    ("paralysie", "URGENT");
    ("perte de conscience", "URGENT");
    ("brûlure grave", "URGENT");
    ("crise convulsive", "URGENT");
    ("douleur abdominale sévère", "URGENT");
    ("vomissement sang", "URGENT");
    ("gonflement visage", "URGENT");
    ("oppression", "URGENT");
    ("essoufflement", "URGENT");
    ("sifflement respiratoire", "URGENT");
    ("faiblesse soudaine", "URGENT");
    ("trouble de la parole", "URGENT");
    ("vision trouble soudaine", "URGENT");
    ("maux de tête violents", "URGENT") ].

(** [__init__(self, data_path)]. *)
Definition init (data_path : str) : M t :=
  disease_data <-
    try_except
      (open_json_load data_path)
      (fun e =>
         match kind e with
         | FileNotFoundError =>
             print ("Fichier " +s+ data_path +s+ " non trouvé") ;;; ret []
         | JSONDecodeError =>
             print ("Erreur de décodage JSON dans " +s+ data_path) ;;; ret []
         | _ => raise e
         end) ;;
  ret {| urgent_symptoms := urgent_table; disease_data := disease_data |}.

(** The inner loop of [check_symptom_severity]: the level of the first
    urgent phrase that occurs in the lowercased symptom. *)
Fixpoint first_urgent (table : pydict str) (symptom_lower : str) : option str :=
  match table with
  | [] => None
  | (urgent_symptom, level) :: rest =>
      if str_contains urgent_symptom symptom_lower then Some level
      else first_urgent rest symptom_lower
  end.

Fixpoint check_symptom_severity (self : t) (symptoms : list str)
  : list (str * str) :=
  match symptoms with
  | [] => []
  | symptom :: rest =>
      let symptom_lower := lower symptom in
      match first_urgent (items (urgent_symptoms self)) symptom_lower with
      | Some level => (symptom, level) :: check_symptom_severity self rest
      | None => check_symptom_severity self rest
      end
  end.

(** [data.get("severity", "inconnue")]. *)
Definition get_severity (data : DiseaseRecord) : str :=
  match severity data with
  | Some s => s
  | None => "inconnue"
  end.

(** The loop of [get_disease_severity] over [self.disease_data.items()]. *)
Fixpoint severity_lookup (entries : list (str * DiseaseRecord))
  (disease_lower : str) : str :=
  match entries with
  | [] => "inconnue"
  | (disease_name, data) :: rest =>
      if str_contains disease_lower (lower disease_name) then get_severity data
      else severity_lookup rest disease_lower
  end.

Definition get_disease_severity (self : t) (disease : str) : str :=
  let disease_lower := lower disease in
  severity_lookup (items (disease_data self)) disease_lower.

(** The alert built when urgent symptoms were found. *)
Definition symptom_alert (urgent_symptoms : list (str * str)) : str :=
  let alert_parts := ["**ALERTE URGENCE MÉDICALE**" +s+ nl] in
  let alert_parts := alert_parts ++ ["**Symptômes urgents détectés :**"] in
  let alert_parts :=
    alert_parts ++
    map (fun sl => "• " +s+ fst sl +s+ " (" +s+ snd sl +s+ ")")
        urgent_symptoms in
  let alert_parts := alert_parts ++ [nl +s+ "**ACTION REQUISE :**"] in
  let alert_parts := alert_parts ++ ["1. **COMPOSEZ LE 15 IMMÉDIATEMENT**"] in
  let alert_parts :=
    alert_parts ++ ["2. **Ne conduisez pas** vous-même à l'hôpital"] in
  let alert_parts :=
    alert_parts ++ ["3. **Restez calme** et suivez les instructions"] in
  let alert_parts :=
    alert_parts ++ ["4. **Prévenez quelqu'un** de votre situation"] in
  let alert_parts :=
    alert_parts ++ ["5. **Préparez vos papiers** d'identité et carte vitale"] in
  join nl alert_parts.

(** The advisory returned for one predicted disease. *)
Definition disease_alert (disease : str) : str :=
  "**Alerte** : La condition '" +s+ disease +s+ "' peut être grave. "
  +s+ "Consultez un médecin rapidement ou contactez le 15 pour avis.".

(** The loop of [generate_urgency_alert] over the predictions. *)
Fixpoint disease_level_alert (self : t) (predictions : list (str * Q)) : str :=
  match predictions with
  | [] => ""
  | (disease, score) :: rest =>
      if Qltb float_0_3 score then
        let severity := get_disease_severity self disease in
        if str_in_list severity ["urgente"; "critique"]
        then disease_alert disease
        else disease_level_alert self rest
      else disease_level_alert self rest
  end.

Definition generate_urgency_alert (self : t) (symptoms : list str)
  (predictions : list (str * Q)) : str :=
  let urgent_symptoms := check_symptom_severity self symptoms in
  match urgent_symptoms with
  | _ :: _ => symptom_alert urgent_symptoms
  | [] => disease_level_alert self predictions
  end.

End SeverityManager.

(* ===================================================================== *)
(** ** app/utils.py *)
(* ===================================================================== *)

Module Utils.

(** The characters that [str.strip()] removes: the code points for which
    [str.isspace()] holds. *)
Definition is_whitespace (c : codepoint) : bool :=
  ((9 <=? c) && (c <=? 13) || (28 <=? c) && (c <=? 32)
   || (c =? 133) || (c =? 160) || (c =? 5760)
   || (8192 <=? c) && (c <=? 8202) || (c =? 8232) || (c =? 8233)
   || (c =? 8239) || (c =? 8287) || (c =? 12288))%N.

Fixpoint lstrip_chars (cs : list codepoint) : list codepoint :=
  match cs with
  | [] => []
  | c :: cs' => if is_whitespace c then lstrip_chars cs' else cs
  end.

(** [s.strip()]. *)
Definition strip (s : str) : str :=
  Str (rev (lstrip_chars (rev (lstrip_chars (chars s))))).

(** The loop of [validate_symptoms]. *)
Definition validate_step (cleaned : list str) (symptom : pyval) : list str :=
  match symptom with
  | PyStr s =>
      let symptom := lower (strip s) in
      if negb (Nat.eqb (len symptom) 0) && negb (str_in_list symptom cleaned)
      then cleaned ++ [symptom] else cleaned
  | _ => cleaned
  end.

(** [validate_symptoms(symptoms)]. *)
Definition validate_symptoms (symptoms : list pyval) : list str :=
  match symptoms with
  | [] => []
  | _ :: _ => fold_left validate_step symptoms []
  end.

End Utils.

(* ===================================================================== *)
(** ** Notions used to state the properties *)
(* ===================================================================== *)

(** [x] occurs somewhere before [y] in [l]. *)
Definition precedes {A} (x y : A) (l : list A) : Prop :=
  exists a b c, l = a ++ x :: b ++ y :: c.

(** Scores never go up along the list. *)
Definition non_increasing (out : list (str * Q)) : Prop :=
  StronglySorted (fun a b => snd b <= snd a) out.

(** The ranking that [predict_diseases] computes from one row of scores. *)
Definition ranked (diseases : list str) (row : list Q) : list (str * Q) :=
  firstn 5
    (sort_reverse snd
       (filter (fun ds => Qltb float_0_1 (snd ds)) (combine diseases row))).

(** The literal [0.31], as the binary64 value it denotes. *)
Definition float_0_31 : Q := 5584463537939415 # 18014398509481984.

(** The binary64 value next above 1, printed 1.0000000000000002. *)
Definition float_above_1 : Q := 4503599627370497 # 4503599627370496.

(** The text of the symptom-level directive, written out, for the urgent
    symptoms listed: a heading, one line per symptom, the five actions. *)
Definition directive_text (urgent : list str) : str :=
  "**ALERTE URGENCE MÉDICALE**" +s+ nl +s+ nl
  +s+ "**Symptômes urgents détectés :**" +s+ nl
  +s+ join nl (map (fun s => "• " +s+ s +s+ " (URGENT)") urgent) +s+ nl
  +s+ nl +s+ "**ACTION REQUISE :**" +s+ nl
  +s+ "1. **COMPOSEZ LE 15 IMMÉDIATEMENT**" +s+ nl
  +s+ "2. **Ne conduisez pas** vous-même à l'hôpital" +s+ nl
  +s+ "3. **Restez calme** et suivez les instructions" +s+ nl
  +s+ "4. **Prévenez quelqu'un** de votre situation" +s+ nl
  +s+ "5. **Préparez vos papiers** d'identité et carte vitale".

(** The text of the disease-level advisory, written out. *)
Definition advisory_text (disease : str) : str :=
  "**Alerte** : La condition '" +s+ disease
  +s+ "' peut être grave. Consultez un médecin rapidement ou contactez le 15 pour avis.".

(** A symptom in which some phrase of the urgent table occurs, once
    lowercased. *)
Definition is_urgent (symptom : str) : bool :=
  existsb (fun u => str_contains u (lower symptom))
          (keys SeverityManager.urgent_table).

(** A prediction that triggers the disease-level advisory. *)
Definition qualifies (self : SeverityManager.t) (ds : str * Q) : bool :=
  Qltb float_0_3 (snd ds)
  && str_in_list (SeverityManager.get_disease_severity self (fst ds))
                 ["urgente"; "critique"].

(** Every label that the extractor can report: the catalog phrases, the
    names of the medical terms, the labels of the regular expressions. *)
Definition vocabulary : list str :=
  keys NLPProcessor.medical_patterns
  ++ map NLPProcessor.get_symptom_name_from_token NLPProcessor.medical_terms
  ++ map snd NLPProcessor.regex_patterns.

(** What each pass of [extract_symptoms] asks of an element of the table
    it walks, and the pass as a step on the list of labels. *)
Definition wants_direct (text_lower pattern : str) : bool :=
  str_contains pattern text_lower.

Definition wants_tokens (tokens : list str) (entry : str * list str) : bool :=
  forallb (fun keyword =>
             existsb (fun token => str_contains keyword token) tokens)
          (snd entry).

Definition wants_term (token : str) : bool :=
  str_in_list token NLPProcessor.medical_terms
  && negb (Nat.eqb (len (NLPProcessor.get_symptom_name_from_token token)) 0).

Definition wants_regex `{NlpEnv} (text_lower : str) (entry : str * str) : bool :=
  re_search_ignorecase (fst entry) text_lower.

(** Each pass as the loop it is, over the table it walks. *)
Definition direct_step (text_lower : str) (acc : list str) (pattern : str)
  : list str :=
  if str_contains pattern text_lower then acc ++ [pattern] else acc.

Definition token_step (tokens : list str) (acc : list str)
  (entry : str * list str) : list str :=
  if negb (str_in_list (fst entry) acc) then
    if wants_tokens tokens entry then acc ++ [fst entry] else acc
  else acc.

Definition term_step (acc : list str) (token : str) : list str :=
  if str_in_list token NLPProcessor.medical_terms then
    if negb (Nat.eqb (len (NLPProcessor.get_symptom_name_from_token token)) 0)
       && negb (str_in_list (NLPProcessor.get_symptom_name_from_token token)
                            acc)
    then acc ++ [NLPProcessor.get_symptom_name_from_token token] else acc
  else acc.

Definition regex_step `{NlpEnv} (text_lower : str) (acc : list str)
  (entry : str * str) : list str :=
  if re_search_ignorecase (fst entry) text_lower then
    if negb (str_in_list (snd entry) acc) then acc ++ [snd entry] else acc
  else acc.

(** The pairs that pass the floor [0.1]. *)
Definition candidates (diseases : list str) (row : list Q) : list (str * Q) :=
  filter (fun ds => Qltb float_0_1 (snd ds)) (combine diseases row).

(* ===================================================================== *)
(** ** Sample environments, on which the statements are evaluated *)
(* ===================================================================== *)

Module Sample.

(** Splitting at spaces. *)
Fixpoint split_spaces (cur : list codepoint) (cs : list codepoint)
  : list (list codepoint) :=
  match cs with
  | [] => match cur with [] => [] | _ => [rev cur] end
  | c :: cs' =>
      if (c =? 32)%N
      then match cur with
           | [] => split_spaces [] cs'
           | _ => rev cur :: split_spaces [] cs'
           end
      else split_spaces (c :: cur) cs'
  end.

Definition word_token (cs : list codepoint) : Token :=
  {| text := Str cs; lemma_ := Str cs;
     is_stop := false; is_punct := false; is_alpha := true |}.

(** A stand-in for the spaCy pipeline: one token per word, each its own
    lemma; like spaCy, it refuses a text of more than 1,000,000
    characters. *)
Definition pipeline (s : str) : result (list Token) :=
  if (1000000 <? N.of_nat (len s))%N
  then Raise (Exn ValueError "[E088] Text exceeds maximum of 1000000")
  else Ok (map word_token (split_spaces [] (chars s))).

#[export] Instance env : NlpEnv := {
  nlp := pipeline;
  re_word := fun c => ((48 <=? c) && (c <=? 57) || (65 <=? c) && (c <=? 90)
                       || (97 <=? c) && (c <=? 122) || (192 <=? c))%N;
  re_space := fun c => ((c =? 32) || (c =? 9) || (c =? 10))%N;
  re_search_ignorecase := fun _ _ => false
}.

(** The same, with one regular expression of the table decided: the pain
    pattern matches when "douleur" is followed, later in the text, by one of
    its three qualifiers. *)
Fixpoint after (sub : list codepoint) (s : list codepoint)
  : option (list codepoint) :=
  if starts_with sub s then Some (skipn (List.length sub) s)
  else match s with
       | [] => None
       | _ :: s' => after sub s'
       end.

Definition search_pain (s : str) : bool :=
  match after (chars "douleur") (chars s) with
  | Some rest =>
      existsb (fun q => chars_contains (chars q) rest)
              ["forte"; "sévère"; "intense"]
  | None => false
  end.

Definition env_regex : NlpEnv := {|
  nlp := pipeline;
  re_word := fun c => ((48 <=? c) && (c <=? 57) || (65 <=? c) && (c <=? 90)
                       || (97 <=? c) && (c <=? 122) || (192 <=? c))%N;
  re_space := fun c => ((c =? 32) || (c =? 9) || (c =? 10))%N;
  re_search_ignorecase := fun pattern s =>
    str_eqb pattern "douleur.*?(forte|sévère|intense)" && search_pain s
|}.

(** A stand-in for scikit-learn: a document is kept as its text, an empty
    document cannot be vectorized, and two texts score 1 when equal, 1/2
    when one occurs in the other, 0 otherwise. *)
Definition overlap (x y : str) : Q :=
  if str_eqb x y then 1
  else if str_contains x y || str_contains y x then 1 # 2
  else 0.

Definition vectorize (docs : list str) : result (list str) :=
  if existsb (fun d => Nat.eqb (len d) 0) docs
  then Raise (Exn ValueError "empty vocabulary")
  else Ok docs.

#[export] Instance sklearn : Sklearn := {
  sk_vectorizer := unit;
  sk_matrix := list str;
  fit_transform := fun docs =>
    match vectorize docs with
    | Ok m => Ok (tt, m)
    | Raise e => Raise e
    end;
  transform := fun _ docs => vectorize docs;
  cosine_similarity := fun X Y => Ok (map (fun x => map (overlap x) Y) X)
}.

(** The same library with the rounding of binary64 arithmetic at the one
    place where it shows: scikit-learn normalises both vectors and
    multiplies them, and for a query equal to a disease description the
    rounded product is 1.0000000000000002, not 1. *)
Definition overlap_rounded (x y : str) : Q :=
  if str_eqb x y then float_above_1
  else if str_contains x y || str_contains y x then 1 # 2
  else 0.

Definition sklearn_rounding : Sklearn := {|
  sk_vectorizer := unit;
  sk_matrix := list str;
  fit_transform := fun docs =>
    match vectorize docs with
    | Ok m => Ok (tt, m)
    | Raise e => Raise e
    end;
  transform := fun _ docs => vectorize docs;
  cosine_similarity := fun X Y =>
    Ok (map (fun x => map (overlap_rounded x) Y) X)
|}.

Definition record (syms : list str) (tier : str) : DiseaseRecord :=
  {| symptoms := Some syms; severity := Some tier;
     advice := None; description := None |}.

(** A small knowledge base; the member ["Rhume"] occurs twice. *)
Definition members : list (str * DiseaseRecord) :=
  [ ("Grippe", record ["fièvre"; "toux"] "modérée");
    ("Rhume", record ["toux"] "bénigne");
    ("Angine", record ["fièvre"] "modérée");
    ("Grippe aviaire", record ["fièvre"; "toux"; "essoufflement"] "critique");
    ("Rhume", record ["nez qui coule"] "bénigne") ].

Definition kb_path : str := "data/symptoms_diseases.json".

Definition world0 : world :=
  {| files := fun p => if str_eqb p kb_path then Some (JsonObject members)
                       else None;
     stdout := [];
     sk_calls := [] |}.

Definition predictor : DiseasePredictor.t :=
  {| DiseasePredictor.disease_data := json_object members;
     DiseasePredictor.diseases := keys (json_object members);
     DiseasePredictor.symptom_descriptions :=
       map (fun entry => join " " (DiseasePredictor.get_symptoms (snd entry)))
           (json_object members);
     DiseasePredictor.vectorizer := tt;
     DiseasePredictor.symptom_vectors :=
       map (fun entry => join " " (DiseasePredictor.get_symptoms (snd entry)))
           (json_object members) |}.

Definition predictor_rounding : @DiseasePredictor.t sklearn_rounding :=
  @DiseasePredictor.Build_t sklearn_rounding
    (json_object members)
    (keys (json_object members))
    (map (fun entry => join " " (DiseasePredictor.get_symptoms (snd entry)))
         (json_object members))
    tt
    (map (fun entry => join " " (DiseasePredictor.get_symptoms (snd entry)))
         (json_object members)).

Definition manager : SeverityManager.t :=
  {| SeverityManager.urgent_symptoms := SeverityManager.urgent_table;
     SeverityManager.disease_data := json_object members |}.

(** A library that counts the calls made to it and answers as [sklearn]
    does. *)
Definition sklearn_counting : @SklearnState sklearn := {|
  sk_state := nat;
  state_transform := fun v docs n => (transform v docs, S n);
  state_cosine_similarity := fun a b n => (cosine_similarity a b, S n)
|}.

(** A library whose vectorizer loses its fitted vocabulary at the first
    [transform]: the state tells whether the vocabulary is still there. *)
Definition sklearn_forgetful : @SklearnState sklearn := {|
  sk_state := bool;
  state_transform := fun v docs fitted =>
    if fitted then (transform v docs, false)
    else (Raise (Exn ValueError "vocabulary not fitted"), false);
  state_cosine_similarity := fun a b fitted =>
    (cosine_similarity a b, fitted)
|}.

Definition memory_counting : @Runtime.memory sklearn sklearn_counting :=
  @Runtime.Memory sklearn sklearn_counting predictor 0%nat world0.

Definition memory_forgetful : @Runtime.memory sklearn sklearn_forgetful :=
  @Runtime.Memory sklearn sklearn_forgetful predictor true world0.

End Sample.

Unset Implicit Arguments.

(* ===================================================================== *)
(** ** Facts about strings *)
(* ===================================================================== *)

Lemma chars_eqb_eq (a b : list codepoint) : chars_eqb a b = true <-> a = b.
Proof.
  revert b; induction a as [|x a IH]; intros [|y b]; simpl;
    try (split; intro; congruence).
  rewrite andb_true_iff, N.eqb_eq, IH.
  split; [intros [-> ->]; reflexivity | intros E; inversion E; auto].
Qed.

Lemma str_eqb_eq (a b : str) : str_eqb a b = true <-> a = b.
Proof.
  destruct a as [a], b as [b]; unfold str_eqb; simpl.
  rewrite chars_eqb_eq. split; congruence.
Qed.

Lemma str_eqb_refl (a : str) : str_eqb a a = true.
Proof. apply str_eqb_eq; reflexivity. Qed.

Lemma str_eqb_neq (a b : str) : str_eqb a b = false <-> a <> b.
Proof.
  rewrite <- str_eqb_eq. destruct (str_eqb a b); split; congruence.
Qed.

Lemma str_in_list_In (x : str) (l : list str) :
  str_in_list x l = true <-> In x l.
Proof.
  unfold str_in_list. rewrite existsb_exists. split.
  - intros (y & Hy & E). apply str_eqb_eq in E. subst; assumption.
  - intros H. exists x. split; [assumption | apply str_eqb_refl].
Qed.

Lemma starts_with_app (p s : list codepoint) :
  starts_with p s = true <-> exists b, s = p ++ b.
Proof.
  revert s; induction p as [|x p IH]; intros s; simpl.
  - split; [intros _; exists s; reflexivity | reflexivity].
  - destruct s as [|y s].
    + split; [discriminate | intros [b E]; discriminate].
    + rewrite andb_true_iff, N.eqb_eq, IH. split.
      * intros [-> [b ->]]. exists b; reflexivity.
      * intros [b E]. inversion E; subst. split; [reflexivity | eauto].
Qed.

Lemma chars_contains_app (p s : list codepoint) :
  chars_contains p s = true <-> exists a b, s = a ++ p ++ b.
Proof.
  induction s as [|y s IH].
  - simpl. rewrite orb_false_r, starts_with_app. split.
    + intros [b E]. exists [], b. exact E.
    + intros (a & b & E). symmetry in E.
      apply app_eq_nil in E as [-> E]. exists b. symmetry; exact E.
  - simpl. rewrite orb_true_iff, starts_with_app, IH. split.
    + intros [[b E] | (a & b & E)].
      * exists [], b. exact E.
      * exists (y :: a), b. rewrite E. reflexivity.
    + intros (a & b & E). destruct a as [|z a].
      * left. exists b. exact E.
      * right. inversion E; subst. exists a, b. reflexivity.
Qed.

Lemma chars_contains_nil (s : list codepoint) : chars_contains [] s = true.
Proof. apply chars_contains_app. exists [], s. reflexivity. Qed.

(** The empty string occurs in every string. *)
Lemma str_contains_empty (s : str) : str_contains "" s = true.
Proof. apply chars_contains_nil. Qed.

Lemma lower_empty : lower "" = "".
Proof. reflexivity. Qed.

(** Lowercasing works character by character, so it keeps occurrences. *)
Lemma str_contains_lower (sub s : str) :
  str_contains sub s = true -> str_contains (lower sub) (lower s) = true.
Proof.
  unfold str_contains, lower; simpl. rewrite !chars_contains_app.
  intros (a & b & ->). exists (map lower_char a), (map lower_char b).
  rewrite !map_app. reflexivity.
Qed.

(** Every phrase of the urgent table is in lower case already. *)
Lemma urgent_table_lower :
  forall u, In u (keys SeverityManager.urgent_table) -> lower u = u.
Proof.
  intros u H. simpl in H.
  repeat (destruct H as [<- | H]; [vm_compute; reflexivity |]).
  contradiction.
Qed.

(* ===================================================================== *)
(** ** Facts about dictionaries *)
(* ===================================================================== *)

Lemma keys_dict_set {V} (k : str) (v : V) (d : pydict V) :
  keys (dict_set k v d) = if str_in_list k (keys d) then keys d
                          else keys d ++ [k].
Proof.
  induction d as [|[k' v'] d IH]; simpl; [reflexivity |].
  destruct (str_eqb k k') eqn:E; simpl; [reflexivity |].
  unfold keys in *. rewrite IH.
  destruct (str_in_list k (map fst d)); reflexivity.
Qed.

Lemma NoDup_snoc {A} (l : list A) (x : A) :
  NoDup l -> ~ In x l -> NoDup (l ++ [x]).
Proof.
  induction l as [|y l IH]; simpl; intros Hl Hx.
  - constructor; [intros [] | constructor].
  - inversion Hl; subst. constructor.
    + rewrite in_app_iff; simpl. intros [H | [H | []]]; [auto | subst; auto].
    + apply IH; auto.
Qed.

Lemma dict_set_NoDup {V} (k : str) (v : V) (d : pydict V) :
  NoDup (keys d) -> NoDup (keys (dict_set k v d)).
Proof.
  intros H. rewrite keys_dict_set.
  destruct (str_in_list k (keys d)) eqn:E; [assumption |].
  apply NoDup_snoc; [assumption |].
  rewrite <- str_in_list_In, E. discriminate.
Qed.

(** A loaded JSON object has each member name once. *)
Lemma json_object_NoDup {V} (members : list (str * V)) :
  NoDup (keys (json_object members)).
Proof.
  unfold json_object.
  assert (G : forall d : pydict V, NoDup (keys d) ->
            NoDup (keys (fold_left (fun d kv => dict_set (fst kv) (snd kv) d)
                                   members d))).
  { induction members as [|kv ms IH]; simpl; intros d Hd; [assumption |].
    apply IH, dict_set_NoDup, Hd. }
  apply G. constructor.
Qed.

(* ===================================================================== *)
(** ** Facts about [precedes] *)
(* ===================================================================== *)

Lemma precedes_cons {A} (x y z : A) (l : list A) :
  precedes x y l -> precedes x y (z :: l).
Proof.
  intros (a & b & c & ->). exists (z :: a), b, c. reflexivity.
Qed.

Lemma precedes_head {A} (x y : A) (l : list A) :
  In y l -> precedes x y (x :: l).
Proof.
  intros H. apply in_split in H as (b & c & ->). exists [], b, c. reflexivity.
Qed.

Lemma precedes_cons_inv {A} (x y z : A) (l : list A) :
  precedes x y (z :: l) -> (z = x /\ In y l) \/ precedes x y l.
Proof.
  intros (a & b & c & E). destruct a as [|z' a]; simpl in E.
  - inversion E; subst. left. split; [reflexivity |].
    rewrite in_app_iff; right; left; reflexivity.
  - inversion E; subst. right. exists a, b, c. reflexivity.
Qed.

Lemma precedes_app_l {A} (x y : A) (l r : list A) :
  precedes x y l -> precedes x y (l ++ r).
Proof.
  intros (a & b & c & ->). exists a, b, (c ++ r).
  rewrite <- !app_assoc. simpl. rewrite <- !app_assoc. reflexivity.
Qed.

Lemma precedes_firstn {A} (x y : A) (n : nat) (l : list A) :
  precedes x y (firstn n l) -> precedes x y l.
Proof.
  intros H. rewrite <- (firstn_skipn n l). apply precedes_app_l, H.
Qed.

Lemma precedes_map {A B} (f : A -> B) (x y : A) (l : list A) :
  precedes x y l -> precedes (f x) (f y) (map f l).
Proof.
  intros (a & b & c & ->). exists (map f a), (map f b), (map f c).
  rewrite map_app; simpl. rewrite map_app; reflexivity.
Qed.

Lemma precedes_filter_inv {A} (f : A -> bool) (x y : A) (l : list A) :
  precedes x y (filter f l) -> precedes x y l.
Proof.
  induction l as [|z l IH]; simpl; intros H.
  - destruct H as (a & b & c & E). destruct a; discriminate.
  - destruct (f z).
    + apply precedes_cons_inv in H as [[-> Hy] | H].
      * apply precedes_head. apply filter_In in Hy. apply Hy.
      * apply precedes_cons, IH, H.
    + apply precedes_cons, IH, H.
Qed.

Lemma precedes_filter {A} (f : A -> bool) (x y : A) (l : list A) :
  precedes x y l -> f x = true -> f y = true -> precedes x y (filter f l).
Proof.
  intros (a & b & c & ->) Hx Hy.
  exists (filter f a), (filter f b), (filter f c).
  rewrite filter_app; simpl. rewrite Hx, filter_app; simpl. rewrite Hy.
  reflexivity.
Qed.

Lemma combine_fst_prefix {A B} (l : list A) (r : list B) :
  exists rest, l = map fst (combine l r) ++ rest.
Proof.
  revert r; induction l as [|x l IH]; intros r; simpl.
  - exists []; reflexivity.
  - destruct r as [|y r]; simpl.
    + exists (x :: l); reflexivity.
    + destruct (IH r) as [rest E]. exists rest. rewrite <- E. reflexivity.
Qed.

Lemma precedes_combine_fst {A B} (p q : A * B) (l : list A) (r : list B) :
  precedes p q (combine l r) -> precedes (fst p) (fst q) l.
Proof.
  intros H. destruct (combine_fst_prefix l r) as [rest E].
  rewrite E. apply precedes_app_l, precedes_map, H.
Qed.

(* ===================================================================== *)
(** ** Facts about the sort *)
(* ===================================================================== *)

Lemma Qltb_lt (x y : Q) : Qltb x y = true <-> x < y.
Proof.
  unfold Qltb. rewrite Qlt_alt. destruct (x ?= y); split; congruence.
Qed.

Lemma Qltb_ge (x y : Q) : Qltb x y = false <-> y <= x.
Proof.
  split.
  - intros H. apply Qnot_lt_le. intros L. apply Qltb_lt in L. congruence.
  - intros H. destruct (Qltb x y) eqn:E; [| reflexivity].
    apply Qltb_lt in E. exfalso. exact (Qle_not_lt _ _ H E).
Qed.

Section Sorting.

Context {A : Type} (key : A -> Q).

Let ge_key (a b : A) : Prop := key b <= key a.

(** Elements whose key equals [q]. *)
Let tie (q : Q) (x : A) : bool := Qeq_bool (key x) q.

Lemma insert_reverse_perm (x : A) (l : list A) :
  Permutation (insert_reverse key x l) (x :: l).
Proof.
  induction l as [|y l IH]; simpl; [reflexivity |].
  destruct (Qltb (key x) (key y)); [| reflexivity].
  rewrite IH. apply perm_swap.
Qed.

Lemma sort_reverse_perm (l : list A) : Permutation (sort_reverse key l) l.
Proof.
  induction l as [|x l IH]; simpl; [reflexivity |].
  rewrite insert_reverse_perm. constructor. exact IH.
Qed.

Lemma insert_reverse_sorted (x : A) (l : list A) :
  StronglySorted ge_key l -> StronglySorted ge_key (insert_reverse key x l).
Proof.
  induction 1 as [|y l Hl IH Hy]; simpl.
  - constructor; constructor.
  - destruct (Qltb (key x) (key y)) eqn:E.
    + constructor; [exact IH |].
      eapply Permutation_Forall.
      * symmetry. apply insert_reverse_perm.
      * constructor; [| exact Hy].
        apply Qltb_lt in E. apply Qlt_le_weak, E.
    + apply Qltb_ge in E.
      constructor; [constructor; assumption |].
      constructor; [exact E |].
      eapply Forall_impl; [| exact Hy].
      intros z Hz. unfold ge_key in *. eapply Qle_trans; eassumption.
Qed.

Lemma sort_reverse_sorted (l : list A) :
  StronglySorted ge_key (sort_reverse key l).
Proof.
  induction l as [|x l IH]; simpl; [constructor |].
  apply insert_reverse_sorted, IH.
Qed.

(** Stability: among the elements of one key the order is unchanged. *)
Lemma insert_reverse_tie (q : Q) (x : A) (l : list A) :
  filter (tie q) (insert_reverse key x l) = filter (tie q) (x :: l).
Proof.
  induction l as [|y l IH]; simpl; [reflexivity |].
  destruct (Qltb (key x) (key y)) eqn:E; [| reflexivity].
  simpl in *. rewrite IH.
  destruct (tie q x) eqn:Tx; [| reflexivity].
  destruct (tie q y) eqn:Ty; [| reflexivity].
  exfalso. unfold tie in *.
  apply Qeq_bool_iff in Tx. apply Qeq_bool_iff in Ty. apply Qltb_lt in E.
  rewrite Tx, Ty in E. exact (Qlt_irrefl _ E).
Qed.

Lemma sort_reverse_tie (q : Q) (l : list A) :
  filter (tie q) (sort_reverse key l) = filter (tie q) l.
Proof.
  induction l as [|x l IH]; simpl; [reflexivity |].
  rewrite insert_reverse_tie. simpl. rewrite IH. reflexivity.
Qed.

Lemma sort_reverse_stable (x y : A) (l : list A) :
  precedes x y (sort_reverse key l) -> key x == key y -> precedes x y l.
Proof.
  intros H E.
  apply (precedes_filter_inv (tie (key y))).
  rewrite <- sort_reverse_tie.
  apply precedes_filter; [exact H | |]; unfold tie; apply Qeq_bool_iff;
    [exact E | reflexivity].
Qed.

End Sorting.

(* ===================================================================== *)
(** ** Facts about the ranking *)
(* ===================================================================== *)

Lemma In_firstn {A} (x : A) (n : nat) (l : list A) :
  In x (firstn n l) -> In x l.
Proof.
  intros H. rewrite <- (firstn_skipn n l). apply in_or_app. left; exact H.
Qed.

Lemma StronglySorted_firstn {A} (R : A -> A -> Prop) (n : nat) (l : list A) :
  StronglySorted R l -> StronglySorted R (firstn n l).
Proof.
  intros H. revert n. induction H as [|x l Hl IH Hx]; intros [|n]; simpl;
    try constructor.
  - apply IH.
  - apply Forall_forall. intros y Hy. apply In_firstn in Hy.
    revert y Hy. apply Forall_forall. exact Hx.
Qed.

Lemma NoDup_firstn {A} (n : nat) (l : list A) : NoDup l -> NoDup (firstn n l).
Proof.
  intros H. rewrite <- (firstn_skipn n l) in H.
  exact (NoDup_app_remove_r _ _ H).
Qed.

Lemma NoDup_map_fst_filter {A B} (f : A * B -> bool) (l : list (A * B)) :
  NoDup (map fst l) -> NoDup (map fst (filter f l)).
Proof.
  induction l as [|p l IH]; simpl; intros H; [constructor |].
  inversion H as [|? ? Hp Hl]; subst.
  destruct (f p); simpl; [| apply IH, Hl].
  constructor; [| apply IH, Hl].
  intros Hin. apply Hp. apply in_map_iff in Hin as (q & E & Hq).
  apply in_map_iff. exists q. split; [exact E |].
  apply filter_In in Hq. apply Hq.
Qed.

Lemma NoDup_map_fst_combine {A B} (l : list A) (r : list B) :
  NoDup l -> NoDup (map fst (combine l r)).
Proof.
  intros H. revert r. induction H as [|x l Hx Hl IH]; intros r; simpl.
  - constructor.
  - destruct r as [|y r]; simpl; constructor; [| apply IH].
    intros Hin. apply Hx. apply in_map_iff in Hin as ([a b] & E & Hq).
    simpl in E; subst. eapply in_combine_l; eassumption.
Qed.

Lemma ranked_In (diseases : list str) (row : list Q) (d : str) (s : Q) :
  In (d, s) (ranked diseases row) ->
  In d diseases /\ In s row /\ In (d, s) (combine diseases row) /\
  float_0_1 < s.
Proof.
  unfold ranked. intros H. apply In_firstn in H.
  apply (Permutation_in _ (sort_reverse_perm snd _)) in H.
  apply filter_In in H as [H L]. cbn [snd] in L. apply Qltb_lt in L.
  split; [eapply in_combine_l; eassumption |].
  split; [eapply in_combine_r; eassumption |].
  split; [exact H | exact L].
Qed.

Lemma ranked_sorted (diseases : list str) (row : list Q) :
  non_increasing (ranked diseases row).
Proof.
  unfold ranked, non_increasing.
  apply StronglySorted_firstn, (sort_reverse_sorted snd).
Qed.

Lemma ranked_length (diseases : list str) (row : list Q) :
  (List.length (ranked diseases row) <= 5)%nat.
Proof. unfold ranked. apply firstn_le_length. Qed.

Lemma ranked_stable (diseases : list str) (row : list Q) (p q : str * Q) :
  precedes p q (ranked diseases row) -> snd p == snd q ->
  precedes (fst p) (fst q) diseases.
Proof.
  unfold ranked. intros H E.
  apply precedes_firstn in H.
  apply sort_reverse_stable in H; [| exact E].
  apply precedes_filter_inv in H.
  eapply precedes_combine_fst, H.
Qed.

Lemma ranked_NoDup (diseases : list str) (row : list Q) :
  NoDup diseases -> NoDup (map fst (ranked diseases row)).
Proof.
  intros H. unfold ranked. rewrite <- firstn_map. apply NoDup_firstn.
  eapply Permutation_NoDup.
  - apply Permutation_map. symmetry. apply sort_reverse_perm.
  - apply NoDup_map_fst_filter, NoDup_map_fst_combine, H.
Qed.

(* ===================================================================== *)
(** ** Facts about [predict_diseases] *)
(* ===================================================================== *)

(** What a call on a non-empty list returns, by the outcome of the two
    library calls. *)
Lemma predict_diseases_value `{Sklearn} (self : DiseasePredictor.t)
  (s : str) (rest : list str) (w : world) :
  fst (DiseasePredictor.predict_diseases self (s :: rest) w) =
  match transform (DiseasePredictor.vectorizer self) [join " " (s :: rest)] with
  | Raise _ => Ok []
  | Ok user_vector =>
      match cosine_similarity user_vector
              (DiseasePredictor.symptom_vectors self) with
      | Raise _ => Ok []
      | Ok [] => Ok []
      | Ok (row :: _) => Ok (ranked (DiseasePredictor.diseases self) row)
      end
  end.
Proof.
  unfold DiseasePredictor.predict_diseases, try_except, bind, sk_lift.
  destruct (transform _ _) as [X | e]; [| reflexivity].
  destruct (cosine_similarity _ _) as [[| row rows] | e]; reflexivity.
Qed.

(** A call returns the empty list or the ranking of a row of scores that
    [cosine_similarity] produced. *)
Lemma predict_diseases_cases `{Sklearn} (self : DiseasePredictor.t)
  (user_symptoms : list str) (w : world) :
  fst (DiseasePredictor.predict_diseases self user_symptoms w) = Ok [] \/
  exists X row rows,
    cosine_similarity X (DiseasePredictor.symptom_vectors self)
      = Ok (row :: rows) /\
    fst (DiseasePredictor.predict_diseases self user_symptoms w)
      = Ok (ranked (DiseasePredictor.diseases self) row).
Proof.
  destruct user_symptoms as [|s rest]; [left; reflexivity |].
  rewrite predict_diseases_value.
  destruct (transform _ _) as [X | e]; [| left; reflexivity].
  destruct (cosine_similarity _ _) as [[| row rows] | e] eqn:E;
    try (left; reflexivity).
  right. exists X, row, rows. split; [exact E | reflexivity].
Qed.

(** The constructor stores the key list of the loaded dictionary. *)
Lemma init_diseases `{Sklearn} (data_path : str) (w w' : world)
  (self : DiseasePredictor.t) :
  DiseasePredictor.init data_path w = (Ok self, w') ->
  DiseasePredictor.diseases self = keys (DiseasePredictor.disease_data self)
  /\ NoDup (DiseasePredictor.diseases self).
Proof.
  unfold DiseasePredictor.init, bind, os_path_exists.
  destruct (files w data_path) as [body |] eqn:F; simpl;
    [| intros E; discriminate].
  unfold open_json_load. rewrite F.
  destruct body as [| members]; [intros E; discriminate |].
  unfold sk_lift, ret.
  match goal with
  | |- context [fit_transform ?docs] =>
      destruct (fit_transform docs) as [fitted | e]
  end; intros E; [| discriminate].
  inversion E; subst; simpl.
  split; [reflexivity | apply json_object_NoDup].
Qed.

(** The value returned does not depend on the state of the world. *)
Lemma predict_diseases_world_independent `{Sklearn}
  (self : DiseasePredictor.t) (user_symptoms : list str) (w1 w2 : world) :
  fst (DiseasePredictor.predict_diseases self user_symptoms w1) =
  fst (DiseasePredictor.predict_diseases self user_symptoms w2).
Proof.
  destruct user_symptoms as [|s rest]; [reflexivity |].
  rewrite !predict_diseases_value. reflexivity.
Qed.

(* ===================================================================== *)
(** ** Properties of the disease matcher *)
(* ===================================================================== *)

(** The score that the library gave for a query equal to a description
    is returned as it is: here 1.0000000000000002 for "nez qui coule". *)
Lemma predict_diseases_score_above_one :
  fst (DiseasePredictor.predict_diseases Sample.predictor_rounding
         ["nez qui coule"] Sample.world0)
  = Ok [("Rhume", float_above_1)]
  /\ 1 < float_above_1.
Proof. split; vm_compute; reflexivity. Qed.

Lemma float_0_1_above_tenth : 1 # 10 < float_0_1.
Proof. vm_compute. reflexivity. Qed.

(** C1, without the upper bound.  For every non-empty symptom list,
    [predict_diseases] returns a list of (disease, score) pairs whose
    scores never increase along the list; two entries with equal scores
    stand in the order that their diseases have in [self.diseases] (the
    sort is stable); the list has at most 5 entries; every score is
    strictly greater than the float 0.1, hence than 1/10.  Each pair is a
    disease with the score that [cosine_similarity] returned for it: the
    score is not clamped, so it is at most 1 only as far as the library's
    is. *)
Theorem predict_diseases_ranking `{Sklearn} (self : DiseasePredictor.t)
  (user_symptoms : list str) (w : world) :
  user_symptoms <> [] ->
  exists out,
    fst (DiseasePredictor.predict_diseases self user_symptoms w) = Ok out /\
    non_increasing out /\
    (forall p q, precedes p q out -> snd p == snd q ->
                 precedes (fst p) (fst q) (DiseasePredictor.diseases self)) /\
    (List.length out <= 5)%nat /\
    Forall (fun ds => float_0_1 < snd ds /\ 1 # 10 < snd ds) out /\
    (forall user_vector row rows,
        transform (DiseasePredictor.vectorizer self) [join " " user_symptoms]
          = Ok user_vector ->
        cosine_similarity user_vector (DiseasePredictor.symptom_vectors self)
          = Ok (row :: rows) ->
        forall ds, In ds out ->
                   In ds (combine (DiseasePredictor.diseases self) row)).
Proof.
  intros Hne. destruct user_symptoms as [|s rest]; [congruence |].
  rewrite predict_diseases_value.
  destruct (transform _ _) as [X | e] eqn:Et.
  2:{ exists []. split; [reflexivity |]. split; [constructor |].
      split; [intros p q (a & b & c & Habs); destruct a; discriminate |].
      split; [simpl; lia |]. split; [constructor |].
      intros uv row rows Habs. discriminate. }
  destruct (cosine_similarity _ _) as [[| row rows] | e] eqn:Ec.
  1,3: exists []; (split; [reflexivity |]); (split; [constructor |]);
       (split; [intros p q (a & b & c & Habs); destruct a; discriminate |]);
       (split; [simpl; lia |]); (split; [constructor |]);
       intros uv row' rows' _ _ ds [].
  exists (ranked (DiseasePredictor.diseases self) row).
  split; [reflexivity |]. split; [apply ranked_sorted |].
  split; [intros p q; apply ranked_stable |].
  split; [apply ranked_length |]. split.
  - apply Forall_forall. intros [d sc] Hin.
    apply ranked_In in Hin as (_ & _ & _ & Hlow). cbn [snd].
    split; [exact Hlow |].
    eapply Qlt_trans; [apply float_0_1_above_tenth | exact Hlow].
  - intros uv row' rows' Huv Hrow [d sc] Hin.
    inversion Huv; subst uv. rewrite Ec in Hrow.
    inversion Hrow; subst row' rows'.
    apply ranked_In in Hin as (_ & _ & Hpair & _). exact Hpair.
Qed.

Lemma predict_diseases_ranking_witness :
  exists out,
    fst (DiseasePredictor.predict_diseases Sample.predictor
           ["fièvre"; "toux"] Sample.world0) = Ok out /\
    non_increasing out /\
    (forall p q, precedes p q out -> snd p == snd q ->
                 precedes (fst p) (fst q)
                          (DiseasePredictor.diseases Sample.predictor)) /\
    (List.length out <= 5)%nat /\
    Forall (fun ds => float_0_1 < snd ds /\ 1 # 10 < snd ds) out /\
    (forall user_vector row rows,
        @transform Sample.sklearn
           (DiseasePredictor.vectorizer Sample.predictor)
           [join " " ["fièvre"; "toux"]]
          = Ok user_vector ->
        @cosine_similarity Sample.sklearn user_vector
           (DiseasePredictor.symptom_vectors Sample.predictor)
          = Ok (row :: rows) ->
        forall ds, In ds out ->
                   In ds (combine (DiseasePredictor.diseases Sample.predictor)
                                  row)).
Proof.
  apply (@predict_diseases_ranking Sample.sklearn Sample.predictor
           ["fièvre"; "toux"] Sample.world0).
  discriminate.
Defined.

(** On the sample knowledge base, three diseases pass the floor for
    "fièvre toux"; the two that tie at 1/2 keep the order of the
    knowledge base. *)
Example predict_diseases_sample :
  fst (DiseasePredictor.predict_diseases Sample.predictor
         ["fièvre"; "toux"] Sample.world0)
  = Ok [("Grippe", 1); ("Angine", 1 # 2); ("Grippe aviaire", 1 # 2)].
Proof. vm_compute. reflexivity. Qed.

(** C5.  Called with the empty list, [predict_diseases] returns the empty
    list and leaves the world as it was: no call into scikit-learn is made
    and nothing is printed.  No call raises; when [transform] or
    [cosine_similarity] raises, the call returns the empty list. *)
Theorem predict_diseases_empty_and_recovery `{Sklearn}
  (self : DiseasePredictor.t) (w : world) :
  DiseasePredictor.predict_diseases self [] w = (Ok [], w) /\
  (forall user_symptoms, exists out,
      fst (DiseasePredictor.predict_diseases self user_symptoms w) = Ok out) /\
  (forall user_symptoms e,
      user_symptoms <> [] ->
      (transform (DiseasePredictor.vectorizer self)
                 [join " " user_symptoms] = Raise e
       \/ exists user_vector,
            transform (DiseasePredictor.vectorizer self)
                      [join " " user_symptoms] = Ok user_vector /\
            cosine_similarity user_vector
              (DiseasePredictor.symptom_vectors self) = Raise e) ->
      fst (DiseasePredictor.predict_diseases self user_symptoms w) = Ok []).
Proof.
  split; [reflexivity |]. split.
  - intros user_symptoms.
    destruct (predict_diseases_cases self user_symptoms w)
      as [E | (X & row & rows & _ & E)]; rewrite E; eauto.
  - intros [|s rest] e Hne Hraise; [congruence |].
    rewrite predict_diseases_value.
    destruct Hraise as [E | (X & E & Ecos)]; rewrite E; [reflexivity |].
    rewrite Ecos. reflexivity.
Qed.

Lemma predict_diseases_empty_and_recovery_witness :
  fst (DiseasePredictor.predict_diseases Sample.predictor [""] Sample.world0)
  = Ok [].
Proof.
  apply (proj2 (proj2 (@predict_diseases_empty_and_recovery Sample.sklearn
                         Sample.predictor Sample.world0))
           [""] (Exn ValueError "empty vocabulary")).
  - discriminate.
  - left. reflexivity.
Defined.

(** The calls that a non-empty list causes, and the line printed when the
    library raises. *)
Example predict_diseases_sample_calls :
  sk_calls (snd (DiseasePredictor.predict_diseases Sample.predictor
                   ["fièvre"; "toux"] Sample.world0))
  = [CallTransform ["fièvre toux"]; CallCosineSimilarity]
  /\ stdout (snd (DiseasePredictor.predict_diseases Sample.predictor
                    [""] Sample.world0))
     = ["Erreur lors de la prédiction: empty vocabulary"].
Proof. split; vm_compute; reflexivity. Qed.

(** One call with the objects in memory, on a non-empty list: the value
    returned, and the memory of the library afterwards. *)
Lemma runtime_predict_value `{SklearnState} (s : str) (rest : list str)
  (m : Runtime.memory) :
  fst (Runtime.predict_diseases (s :: rest) m) =
  match fst (state_transform (DiseasePredictor.vectorizer (Runtime.self m))
               [join " " (s :: rest)] (Runtime.library m)) with
  | Raise _ => Ok []
  | Ok user_vector =>
      match fst (state_cosine_similarity user_vector
                   (DiseasePredictor.symptom_vectors (Runtime.self m))
                   (snd (state_transform
                           (DiseasePredictor.vectorizer (Runtime.self m))
                           [join " " (s :: rest)] (Runtime.library m)))) with
      | Raise _ => Ok []
      | Ok [] => Ok []
      | Ok (row :: _) =>
          Ok (ranked (DiseasePredictor.diseases (Runtime.self m)) row)
      end
  end.
Proof.
  unfold Runtime.predict_diseases, Runtime.try_except, Runtime.bind,
    Runtime.attribute, Runtime.call. cbn [fst snd Runtime.library Runtime.self].
  destruct (state_transform _ _ _) as [[X | e] h1]; cbn [fst snd];
    [| reflexivity].
  destruct (state_cosine_similarity _ _ _) as [[[| row rows] | e] h2];
    reflexivity.
Qed.

Lemma runtime_predict_library `{SklearnState} (s : str) (rest : list str)
  (m : Runtime.memory) :
  Runtime.library (snd (Runtime.predict_diseases (s :: rest) m)) =
  match fst (state_transform (DiseasePredictor.vectorizer (Runtime.self m))
               [join " " (s :: rest)] (Runtime.library m)) with
  | Raise _ =>
      snd (state_transform (DiseasePredictor.vectorizer (Runtime.self m))
             [join " " (s :: rest)] (Runtime.library m))
  | Ok user_vector =>
      snd (state_cosine_similarity user_vector
             (DiseasePredictor.symptom_vectors (Runtime.self m))
             (snd (state_transform
                     (DiseasePredictor.vectorizer (Runtime.self m))
                     [join " " (s :: rest)] (Runtime.library m))))
  end.
Proof.
  unfold Runtime.predict_diseases, Runtime.try_except, Runtime.bind,
    Runtime.attribute, Runtime.call. cbn [fst snd Runtime.library Runtime.self].
  destruct (state_transform _ _ _) as [[X | e] h1]; cbn [fst snd];
    [| reflexivity].
  destruct (state_cosine_similarity _ _ _) as [[[| row rows] | e] h2];
    reflexivity.
Qed.

(** The method rebinds no attribute of the predictor. *)
Lemma runtime_predict_self `{SklearnState} (user_symptoms : list str)
  (m : Runtime.memory) :
  Runtime.self (snd (Runtime.predict_diseases user_symptoms m))
  = Runtime.self m.
Proof.
  destruct user_symptoms as [| s rest]; [reflexivity |].
  unfold Runtime.predict_diseases, Runtime.try_except, Runtime.bind,
    Runtime.attribute, Runtime.call. cbn [fst snd Runtime.library Runtime.self].
  destruct (state_transform _ _ _) as [[X | e] h1]; cbn [fst snd];
    [| reflexivity].
  destruct (state_cosine_similarity _ _ _) as [[[| row rows] | e] h2];
    reflexivity.
Qed.

(** The method neither reads nor writes a file. *)
Lemma runtime_predict_files `{SklearnState} (user_symptoms : list str)
  (m : Runtime.memory) :
  files (Runtime.os (snd (Runtime.predict_diseases user_symptoms m)))
  = files (Runtime.os m).
Proof.
  destruct user_symptoms as [| s rest]; [reflexivity |].
  unfold Runtime.predict_diseases, Runtime.try_except, Runtime.bind,
    Runtime.attribute, Runtime.call. cbn [fst snd Runtime.library Runtime.self].
  destruct (state_transform _ _ _) as [[X | e] h1]; cbn [fst snd];
    [| reflexivity].
  destruct (state_cosine_similarity _ _ _) as [[[| row rows] | e] h2];
    reflexivity.
Qed.

(** When the library answers by its arguments alone, the method with the
    objects in memory returns what [DiseasePredictor.predict_diseases]
    returns, and prints and records the same. *)
Lemma runtime_predict_refines `{SklearnState} (user_symptoms : list str)
  (m : Runtime.memory) :
  (forall v docs h, fst (state_transform v docs h) = transform v docs) ->
  (forall a b h,
      fst (state_cosine_similarity a b h) = cosine_similarity a b) ->
  fst (Runtime.predict_diseases user_symptoms m)
  = fst (DiseasePredictor.predict_diseases (Runtime.self m) user_symptoms
           (Runtime.os m)) /\
  Runtime.os (snd (Runtime.predict_diseases user_symptoms m))
  = snd (DiseasePredictor.predict_diseases (Runtime.self m) user_symptoms
           (Runtime.os m)).
Proof.
  intros Ht Hc. destruct user_symptoms as [| s rest];
    [split; reflexivity |].
  unfold Runtime.predict_diseases, Runtime.try_except, Runtime.bind,
    Runtime.attribute, Runtime.call,
    DiseasePredictor.predict_diseases, try_except, bind, sk_lift.
  cbn [fst snd Runtime.library Runtime.self Runtime.os].
  rewrite <- (Ht (DiseasePredictor.vectorizer (Runtime.self m))
                [join " " (s :: rest)] (Runtime.library m)).
  destruct (state_transform _ _ _) as [[X | e] h1]; cbn [fst snd];
    [| split; reflexivity].
  rewrite <- (Hc X (DiseasePredictor.symptom_vectors (Runtime.self m)) h1).
  destruct (state_cosine_similarity _ _ _) as [[[| row rows] | e] h2];
    split; reflexivity.
Qed.

(** With a library whose vectorizer loses its vocabulary at the first
    [transform], two calls in a row differ: the second finds nothing. *)
Example predict_diseases_forgetful_library :
  fst (Runtime.predict_diseases ["fièvre"; "toux"] Sample.memory_forgetful)
  = Ok [("Grippe", 1); ("Angine", 1 # 2); ("Grippe aviaire", 1 # 2)]
  /\ fst (Runtime.predict_diseases ["fièvre"; "toux"]
            (snd (Runtime.predict_diseases ["fièvre"; "toux"]
                    Sample.memory_forgetful)))
     = Ok [].
Proof. split; vm_compute; reflexivity. Qed.

(** The counting library changes its memory at every call and keeps its
    answers. *)
Lemma counting_keeps_answers : @calls_keep_answers _ Sample.sklearn_counting.
Proof. intros h h' _. split; reflexivity. Qed.

(** C8.  With the predictor as an object in memory and a library that has
    memory of its own: a call of [predict_diseases] rebinds no attribute of
    the predictor, and its value depends on the attributes, on the list and
    on the memory of the library only (not on the files, nor on what was
    printed before).  Hence two calls in a row with the same list, the
    second one made in the memory that the first one left, return the same
    value when the fitted vector space is unchanged: when the first call
    left the memory of the library as it was, or, more generally, when the
    calls of the library do not change what it answers. *)
Theorem predict_diseases_deterministic `{SklearnState}
  (user_symptoms : list str) (m : Runtime.memory) :
  let first := Runtime.predict_diseases user_symptoms m in
  let second := Runtime.predict_diseases user_symptoms (snd first) in
  Runtime.self (snd first) = Runtime.self m /\
  Runtime.self (snd second) = Runtime.self m /\
  (forall m',
      Runtime.self m' = Runtime.self m ->
      Runtime.library m' = Runtime.library m ->
      fst (Runtime.predict_diseases user_symptoms m') = fst first) /\
  (Runtime.library (snd first) = Runtime.library m ->
   fst second = fst first) /\
  (calls_keep_answers -> fst second = fst first).
Proof.
  cbv zeta.
  assert (Hsame : forall m',
             Runtime.self m' = Runtime.self m ->
             Runtime.library m' = Runtime.library m ->
             fst (Runtime.predict_diseases user_symptoms m')
             = fst (Runtime.predict_diseases user_symptoms m)).
  { intros m' Hs Hl. destruct user_symptoms as [| s rest]; [reflexivity |].
    rewrite !runtime_predict_value, Hs, Hl. reflexivity. }
  split; [apply runtime_predict_self |].
  split; [rewrite !runtime_predict_self; reflexivity |].
  split; [exact Hsame |].
  split.
  - intros Hl. apply Hsame; [apply runtime_predict_self | exact Hl].
  - intros Hkeep. destruct user_symptoms as [| s rest]; [reflexivity |].
    rewrite (runtime_predict_value s rest
               (snd (Runtime.predict_diseases (s :: rest) m))).
    rewrite runtime_predict_self, runtime_predict_library.
    rewrite (runtime_predict_value s rest m).
    set (v := DiseasePredictor.vectorizer (Runtime.self m)).
    set (sv := DiseasePredictor.symptom_vectors (Runtime.self m)).
    set (docs := [join " " (s :: rest)]).
    set (h := Runtime.library m).
    set (h1 := snd (state_transform v docs h)).
    assert (S1 : library_step h h1) by apply step_transform.
    destruct (fst (state_transform v docs h)) as [X | e] eqn:T.
    + set (h2 := snd (state_cosine_similarity X sv h1)).
      assert (S2 : library_step h1 h2) by apply step_cosine_similarity.
      assert (T2 : fst (state_transform v docs h2) = Ok X).
      { rewrite (proj1 (Hkeep h1 h2 S2) v docs).
        rewrite (proj1 (Hkeep h h1 S1) v docs). exact T. }
      rewrite T2.
      set (h3 := snd (state_transform v docs h2)).
      assert (S3 : library_step h2 h3) by apply step_transform.
      rewrite (proj2 (Hkeep h2 h3 S3) X sv).
      rewrite (proj2 (Hkeep h1 h2 S2) X sv). reflexivity.
    + rewrite (proj1 (Hkeep h h1 S1) v docs), T. reflexivity.
Qed.

Lemma predict_diseases_deterministic_witness :
  fst (Runtime.predict_diseases ["fièvre"; "toux"]
         (snd (Runtime.predict_diseases ["fièvre"; "toux"]
                 Sample.memory_counting)))
  = fst (Runtime.predict_diseases ["fièvre"; "toux"] Sample.memory_counting)
  /\ Runtime.library (snd (Runtime.predict_diseases ["fièvre"; "toux"]
                             Sample.memory_counting)) = 2%nat.
Proof.
  split.
  - apply (proj2 (proj2 (proj2 (proj2
             (@predict_diseases_deterministic _ Sample.sklearn_counting
                ["fièvre"; "toux"] Sample.memory_counting))))).
    intros h h' _. split; reflexivity.
  - vm_compute. reflexivity.
Defined.

(** C10.  On a predictor that the constructor built, every disease name in
    the output of [predict_diseases] is a key of the loaded knowledge base,
    and no name occurs twice. *)
Theorem predict_diseases_names `{Sklearn} (data_path : str) (w0 w1 : world)
  (self : DiseasePredictor.t) (user_symptoms : list str) (w : world)
  (out : list (str * Q)) :
  DiseasePredictor.init data_path w0 = (Ok self, w1) ->
  fst (DiseasePredictor.predict_diseases self user_symptoms w) = Ok out ->
  (forall d s, In (d, s) out ->
               In d (keys (DiseasePredictor.disease_data self))) /\
  NoDup (map fst out).
Proof.
  intros Hinit Hout. apply init_diseases in Hinit as [Hkeys Hnodup].
  destruct (predict_diseases_cases self user_symptoms w)
    as [E | (X & row & rows & _ & E)]; rewrite E in Hout;
    inversion Hout; subst; clear Hout.
  - split; [intros d s [] | constructor].
  - split.
    + intros d s Hin. apply ranked_In in Hin as (Hd & _).
      rewrite <- Hkeys. exact Hd.
    + apply ranked_NoDup, Hnodup.
Qed.

Lemma predict_diseases_names_witness :
  (forall d s,
      In (d, s) [("Grippe", 1); ("Angine", 1 # 2); ("Grippe aviaire", 1 # 2)] ->
      In d (keys (DiseasePredictor.disease_data Sample.predictor))) /\
  NoDup (map fst [("Grippe", 1); ("Angine", 1 # 2); ("Grippe aviaire", 1 # 2)]).
Proof.
  apply (@predict_diseases_names Sample.sklearn Sample.kb_path Sample.world0
           (snd (@DiseasePredictor.init Sample.sklearn Sample.kb_path
                   Sample.world0))
           Sample.predictor ["fièvre"; "toux"] Sample.world0).
  - reflexivity.
  - vm_compute. reflexivity.
Defined.

(* ===================================================================== *)
(** ** Facts about the severity manager *)
(* ===================================================================== *)

Lemma first_urgent_uniform (table : pydict str) (level : str)
  (symptom_lower : str) :
  Forall (fun e => snd e = level) table ->
  SeverityManager.first_urgent table symptom_lower =
  if existsb (fun u => str_contains u symptom_lower) (keys table)
  then Some level else None.
Proof.
  induction 1 as [|[u l] table Hl _ IH]; simpl; [reflexivity |].
  simpl in Hl; subst l.
  destruct (str_contains u symptom_lower); [reflexivity | exact IH].
Qed.

Lemma urgent_table_levels :
  Forall (fun e => snd e = "URGENT") SeverityManager.urgent_table.
Proof. repeat constructor. Qed.

(** On the table of the source, the urgent symptoms found are the symptoms
    that [is_urgent] accepts, in their order, each tagged ["URGENT"]. *)
Lemma check_symptom_severity_filter (self : SeverityManager.t)
  (symptoms : list str) :
  SeverityManager.urgent_symptoms self = SeverityManager.urgent_table ->
  SeverityManager.check_symptom_severity self symptoms =
  map (fun s => (s, "URGENT")) (filter is_urgent symptoms).
Proof.
  intros Htable. induction symptoms as [|s rest IH]; simpl; [reflexivity |].
  unfold items. rewrite Htable.
  rewrite (first_urgent_uniform _ _ _ urgent_table_levels).
  unfold is_urgent at 1.
  destruct (existsb _ _); simpl; rewrite IH; reflexivity.
Qed.

(** The constructor never raises, and it installs the table. *)
Lemma severity_init_table (data_path : str) (w w' : world)
  (self : SeverityManager.t) :
  SeverityManager.init data_path w = (Ok self, w') ->
  SeverityManager.urgent_symptoms self = SeverityManager.urgent_table.
Proof.
  unfold SeverityManager.init, bind, try_except, open_json_load.
  destruct (files w data_path) as [[| members] |]; simpl;
    intros E; inversion E; reflexivity.
Qed.

(** The two kinds of alert differ at their fourth character. *)
Lemma symptom_alert_not_disease_alert (urgent : list (str * str))
  (disease : str) :
  SeverityManager.symptom_alert urgent <> SeverityManager.disease_alert disease.
Proof.
  intros E.
  assert (N : nth 3 (chars (SeverityManager.symptom_alert urgent)) 0%N
              = nth 3 (chars (SeverityManager.disease_alert disease)) 0%N)
    by (rewrite E; reflexivity).
  discriminate N.
Qed.


Lemma severity_lookup_first (before after : list (str * DiseaseRecord))
  (name : str) (data : DiseaseRecord) (disease_lower : str) :
  str_contains disease_lower (lower name) = true ->
  (forall n d, In (n, d) before ->
               str_contains disease_lower (lower n) = false) ->
  SeverityManager.severity_lookup (before ++ (name, data) :: after)
    disease_lower
  = SeverityManager.get_severity data.
Proof.
  intros Hname Hbefore.
  induction before as [|[n d] before IH]; simpl.
  - rewrite Hname. reflexivity.
  - rewrite (Hbefore n d) by (left; reflexivity).
    apply IH. intros n' d' Hin. apply (Hbefore n' d'). right; exact Hin.
Qed.

Lemma disease_level_alert_find (self : SeverityManager.t)
  (predictions : list (str * Q)) :
  SeverityManager.disease_level_alert self predictions =
  match find (qualifies self) predictions with
  | Some ds => SeverityManager.disease_alert (fst ds)
  | None => ""
  end.
Proof.
  induction predictions as [|[d s] rest IH]; [reflexivity |].
  cbn [SeverityManager.disease_level_alert find].
  unfold qualifies at 1. cbn [fst snd].
  destruct (Qltb float_0_3 s); cbn [andb]; [| exact IH].
  destruct (str_in_list (SeverityManager.get_disease_severity self d)
                        ["urgente"; "critique"]);
    [reflexivity | exact IH].
Qed.

Lemma qualifies_at_threshold (self : SeverityManager.t) (d : str) (s : Q) :
  s <= float_0_3 -> qualifies self (d, s) = false.
Proof.
  intros H. unfold qualifies; simpl.
  apply (Qltb_ge float_0_3 s) in H. rewrite H. reflexivity.
Qed.

(* ===================================================================== *)
(** ** Properties of the severity escalator *)
(* ===================================================================== *)

(** *** The texts of the two alerts *)

Lemma str_add_assoc (a b c : str) : (a +s+ b) +s+ c = a +s+ (b +s+ c).
Proof. unfold str_add; simpl. rewrite app_assoc. reflexivity. Qed.

Lemma join_cons2 (sep p q : str) (r : list str) :
  join sep (p :: q :: r) = p +s+ sep +s+ join sep (q :: r).
Proof. reflexivity. Qed.

Lemma join_app (sep : str) (l1 l2 : list str) :
  l1 <> [] -> l2 <> [] ->
  join sep (l1 ++ l2) = join sep l1 +s+ sep +s+ join sep l2.
Proof.
  intros H1 H2. induction l1 as [|p l1 IH]; [congruence |].
  destruct l1 as [|q r].
  - destruct l2 as [|x l2]; [congruence | reflexivity].
  - change ((p :: q :: r) ++ l2) with (p :: q :: (r ++ l2)).
    rewrite !join_cons2.
    change (q :: r ++ l2) with ((q :: r) ++ l2).
    rewrite IH by discriminate. rewrite !str_add_assoc. reflexivity.
Qed.

Lemma str_contains_add_l (b x y : str) :
  str_contains b x = true -> str_contains b (x +s+ y) = true.
Proof.
  unfold str_contains, str_add; simpl. rewrite !chars_contains_app.
  intros (a & c & ->). exists a, (c ++ chars y).
  rewrite <- !app_assoc. reflexivity.
Qed.

Lemma str_contains_add_r (b x y : str) :
  str_contains b y = true -> str_contains b (x +s+ y) = true.
Proof.
  unfold str_contains, str_add; simpl. rewrite !chars_contains_app.
  intros (a & c & ->). exists (chars x ++ a), c.
  rewrite <- !app_assoc. reflexivity.
Qed.

Lemma str_contains_self (s : str) : str_contains s s = true.
Proof.
  apply chars_contains_app. exists [], []. rewrite app_nil_r. reflexivity.
Qed.

Lemma str_contains_join (sep b : str) (l : list str) :
  In b l -> str_contains b (join sep l) = true.
Proof.
  induction l as [|p l IH]; [contradiction |].
  intros Hin. destruct l as [|q r].
  - destruct Hin as [-> | []]. apply str_contains_self.
  - rewrite join_cons2. destruct Hin as [-> | Hin].
    + apply str_contains_add_l, str_contains_self.
    + apply str_contains_add_r, str_contains_add_r, IH, Hin.
Qed.

(** The alert for urgent symptoms is the directive, word for word. *)
Lemma symptom_alert_text (l : list str) :
  l <> [] ->
  SeverityManager.symptom_alert (map (fun s => (s, "URGENT")) l)
  = directive_text l.
Proof.
  intros Hne. unfold SeverityManager.symptom_alert, directive_text.
  cbv zeta. rewrite map_map. cbn [fst snd].
  rewrite <- !app_assoc. cbn [app]. rewrite join_cons2.
  set (bullet := fun x : str => "• " +s+ x +s+ " (" +s+ "URGENT" +s+ ")").
  set (tail := [nl +s+ "**ACTION REQUISE :**";
                "1. **COMPOSEZ LE 15 IMMÉDIATEMENT**";
                "2. **Ne conduisez pas** vous-même à l'hôpital";
                "3. **Restez calme** et suivez les instructions";
                "4. **Prévenez quelqu'un** de votre situation";
                "5. **Préparez vos papiers** d'identité et carte vitale"]).
  change (join nl ("**Symptômes urgents détectés :**" :: map bullet l ++ tail))
    with (join nl (["**Symptômes urgents détectés :**"] ++ (map bullet l ++ tail))).
  rewrite join_app; [| discriminate | destruct l; [congruence | discriminate]].
  rewrite join_app; [| destruct l; [congruence | discriminate] | discriminate].
  unfold tail. cbn [join]. rewrite !str_add_assoc.
  assert (Eb : map bullet l = map (fun s => "• " +s+ s +s+ " (URGENT)") l).
  { apply map_ext. intros x. reflexivity. }
  rewrite Eb. reflexivity.
Qed.

Lemma directive_text_not_empty (l : list str) : directive_text l <> "".
Proof.
  intros E.
  assert (N : nth 0 (chars (directive_text l)) 0%N = nth 0 (chars "") 0%N)
    by (rewrite E; reflexivity).
  discriminate N.
Qed.

Lemma directive_text_names (l : list str) (symptom : str) :
  In symptom l ->
  str_contains ("• " +s+ symptom +s+ " (URGENT)") (directive_text l) = true.
Proof.
  intros Hin. unfold directive_text.
  do 5 apply str_contains_add_r. apply str_contains_add_l.
  apply str_contains_join.
  apply (in_map (fun s => "• " +s+ s +s+ " (URGENT)")), Hin.
Qed.

(** The advisory of a disease is the advisory text, word for word. *)
Lemma disease_alert_text (disease : str) :
  SeverityManager.disease_alert disease = advisory_text disease.
Proof. reflexivity. Qed.

Lemma advisory_text_not_empty (disease : str) : advisory_text disease <> "".
Proof.
  intros E.
  assert (N : nth 0 (chars (advisory_text disease)) 0%N
              = nth 0 (chars "") 0%N) by (rewrite E; reflexivity).
  discriminate N.
Qed.

(** The advisory names its disease: two diseases, two texts. *)
Lemma advisory_text_injective (d d' : str) :
  advisory_text d = advisory_text d' -> d = d'.
Proof.
  destruct d as [cd], d' as [cd']. unfold advisory_text, str_add.
  cbn [chars]. intros E. inversion E as [Ec].
  apply app_inv_tail in Ec. congruence.
Qed.

Lemma directive_not_advisory (l : list str) (disease : str) :
  directive_text l <> advisory_text disease.
Proof.
  intros E.
  assert (N : nth 3 (chars (directive_text l)) 0%N
              = nth 3 (chars (advisory_text disease)) 0%N)
    by (rewrite E; reflexivity).
  discriminate N.
Qed.

Lemma find_first {A} (f : A -> bool) (before after : list A) (x : A) :
  (forall p, In p before -> f p = false) -> f x = true ->
  find f (before ++ x :: after) = Some x.
Proof.
  intros Hb Hx. induction before as [|p before IH]; simpl.
  - rewrite Hx. reflexivity.
  - rewrite (Hb p) by (left; reflexivity).
    apply IH. intros q Hq. apply Hb. right; exact Hq.
Qed.

Lemma float_0_3_below_0_31 : float_0_3 < float_0_31.
Proof. vm_compute. reflexivity. Qed.

(** C2.  On a constructed manager, when some symptom contains a phrase of
    the urgent table, [generate_urgency_alert] returns the symptom-level
    directive, word for word: the heading, one line "• symptom (URGENT)"
    for every symptom found urgent (each symptom whose lowercased text
    contains a phrase of the table, in the order given), and the five
    actions, the first of which is to call the 15.  The text is not empty,
    is the same for every list of predictions, and is never the advisory
    of a disease. *)
Theorem urgent_symptom_precedence (data_path : str) (w w' : world)
  (self : SeverityManager.t) (symptoms : list str)
  (predictions : list (str * Q)) :
  SeverityManager.init data_path w = (Ok self, w') ->
  (exists symptom u,
      In symptom symptoms /\ In u (keys SeverityManager.urgent_table) /\
      str_contains u symptom = true) ->
  SeverityManager.generate_urgency_alert self symptoms predictions
  = directive_text (filter is_urgent symptoms) /\
  SeverityManager.generate_urgency_alert self symptoms predictions
  = SeverityManager.symptom_alert
      (map (fun s => (s, "URGENT")) (filter is_urgent symptoms)) /\
  SeverityManager.generate_urgency_alert self symptoms predictions <> "" /\
  (forall symptom u,
      In symptom symptoms -> In u (keys SeverityManager.urgent_table) ->
      str_contains u symptom = true ->
      In symptom (filter is_urgent symptoms) /\
      str_contains ("• " +s+ symptom +s+ " (URGENT)")
        (SeverityManager.generate_urgency_alert self symptoms predictions)
      = true) /\
  str_contains "1. **COMPOSEZ LE 15 IMMÉDIATEMENT**"
    (SeverityManager.generate_urgency_alert self symptoms predictions)
  = true /\
  (forall disease,
      SeverityManager.generate_urgency_alert self symptoms predictions
      <> advisory_text disease /\
      SeverityManager.generate_urgency_alert self symptoms predictions
      <> SeverityManager.disease_alert disease).
Proof.
  intros Hinit Hurgent. apply severity_init_table in Hinit.
  assert (Hfound : forall symptom u,
             In symptom symptoms -> In u (keys SeverityManager.urgent_table) ->
             str_contains u symptom = true ->
             In symptom (filter is_urgent symptoms)).
  { intros symptom u Hs Hu Hc. apply filter_In. split; [exact Hs |].
    unfold is_urgent. apply existsb_exists. exists u. split; [exact Hu |].
    rewrite <- (urgent_table_lower u Hu). apply str_contains_lower, Hc. }
  assert (Hne : filter is_urgent symptoms <> []).
  { destruct Hurgent as (symptom & u & Hs & Hu & Hc).
    specialize (Hfound symptom u Hs Hu Hc).
    destruct (filter is_urgent symptoms); [contradiction | discriminate]. }
  assert (Halert :
            SeverityManager.generate_urgency_alert self symptoms predictions
            = SeverityManager.symptom_alert
                (map (fun s => (s, "URGENT")) (filter is_urgent symptoms))).
  { unfold SeverityManager.generate_urgency_alert.
    rewrite (check_symptom_severity_filter self symptoms Hinit).
    destruct (filter is_urgent symptoms); [congruence | reflexivity]. }
  assert (Htext :
            SeverityManager.generate_urgency_alert self symptoms predictions
            = directive_text (filter is_urgent symptoms)).
  { rewrite Halert. apply symptom_alert_text, Hne. }
  split; [exact Htext |]. split; [exact Halert |].
  split; [rewrite Htext; apply directive_text_not_empty |].
  split.
  { intros symptom u Hs Hu Hc. split; [exact (Hfound symptom u Hs Hu Hc) |].
    rewrite Htext. apply directive_text_names.
    exact (Hfound symptom u Hs Hu Hc). }
  split.
  { rewrite Htext. unfold directive_text.
    do 10 apply str_contains_add_r. apply str_contains_add_l.
    apply str_contains_self. }
  intros disease. split.
  - rewrite Htext. apply directive_not_advisory.
  - rewrite Halert. apply symptom_alert_not_disease_alert.
Qed.

Lemma urgent_symptom_precedence_witness :
  SeverityManager.generate_urgency_alert Sample.manager
    ["Essoufflement"; "toux"; "douleur thoracique"]
    [("Grippe aviaire", 9 # 10)]
  = directive_text ["Essoufflement"; "douleur thoracique"].
Proof.
  apply (proj1 (urgent_symptom_precedence
                  Sample.kb_path Sample.world0 Sample.world0 Sample.manager
                  ["Essoufflement"; "toux"; "douleur thoracique"]
                  [("Grippe aviaire", 9 # 10)] eq_refl
                  (ex_intro _ "douleur thoracique"
                     (ex_intro _ "douleur thoracique"
                        (conj (or_intror (or_intror (or_introl eq_refl)))
                           (conj (or_intror (or_introl eq_refl))
                                 eq_refl)))))).
Defined.

(** C3.  When no urgent symptom is found, the alert is the advisory of the
    first prediction, in list order, whose score is strictly greater than
    the float 0.3 and whose severity is "urgente" or "critique" (the tiers
    urgent and critical as the knowledge base names them), and it is the
    empty string when there is none; later qualifying diseases add
    nothing.  The advisory is a text that is not empty and that names its
    disease.  A score equal to 0.3 (or below) does not qualify, so a list
    of such scores gives the empty string; a first prediction at 0.31 with
    such a tier gives the advisory of that disease. *)
Theorem disease_level_threshold (self : SeverityManager.t)
  (symptoms : list str) (predictions : list (str * Q)) :
  SeverityManager.check_symptom_severity self symptoms = [] ->
  SeverityManager.generate_urgency_alert self symptoms predictions
  = match find (qualifies self) predictions with
    | Some ds => advisory_text (fst ds)
    | None => ""
    end /\
  SeverityManager.generate_urgency_alert self symptoms predictions
  = match find (qualifies self) predictions with
    | Some ds => SeverityManager.disease_alert (fst ds)
    | None => ""
    end /\
  (forall d, advisory_text d <> "") /\
  (forall d d', advisory_text d = advisory_text d' -> d = d') /\
  (forall before d s after,
      predictions = before ++ (d, s) :: after ->
      (forall p, In p before -> qualifies self p = false) ->
      qualifies self (d, s) = true ->
      SeverityManager.generate_urgency_alert self symptoms predictions
      = advisory_text d) /\
  (forall d s, s <= float_0_3 -> qualifies self (d, s) = false) /\
  ((forall d s, In (d, s) predictions -> s <= float_0_3) ->
   SeverityManager.generate_urgency_alert self symptoms predictions = "") /\
  (forall d rest,
      In (SeverityManager.get_disease_severity self d)
         ["urgente"; "critique"] ->
      SeverityManager.generate_urgency_alert self symptoms
        ((d, float_0_3) :: [])
      = "" /\
      SeverityManager.generate_urgency_alert self symptoms
        ((d, float_0_31) :: rest)
      = advisory_text d).
Proof.
  intros Hnone.
  assert (Hgen : forall preds,
             SeverityManager.generate_urgency_alert self symptoms preds
             = match find (qualifies self) preds with
               | Some ds => advisory_text (fst ds)
               | None => ""
               end).
  { intros preds. unfold SeverityManager.generate_urgency_alert.
    rewrite Hnone. rewrite disease_level_alert_find.
    destruct (find (qualifies self) preds); reflexivity. }
  assert (Hthr : forall d s, s <= float_0_3 -> qualifies self (d, s) = false).
  { intros d s E. apply qualifies_at_threshold, E. }
  assert (Hhigh : forall d,
             In (SeverityManager.get_disease_severity self d)
                ["urgente"; "critique"] ->
             qualifies self (d, float_0_31) = true).
  { intros d Htier. unfold qualifies. cbn [fst snd].
    apply str_in_list_In in Htier. rewrite Htier.
    replace (Qltb float_0_3 float_0_31) with true; [reflexivity |].
    symmetry. apply Qltb_lt, float_0_3_below_0_31. }
  split; [apply Hgen |].
  split.
  { rewrite Hgen. destruct (find (qualifies self) predictions); reflexivity. }
  split; [exact advisory_text_not_empty |].
  split; [exact advisory_text_injective |].
  split.
  { intros before d s after -> Hb Hq. rewrite Hgen.
    rewrite (find_first (qualifies self) before after (d, s) Hb Hq).
    reflexivity. }
  split; [exact Hthr |].
  split.
  { intros Hall. rewrite Hgen.
    destruct (find (qualifies self) predictions) as [[d s] |] eqn:F;
      [| reflexivity].
    apply find_some in F as [Hin Hq].
    rewrite (Hthr d s (Hall d s Hin)) in Hq. discriminate. }
  intros d rest Htier. split.
  - rewrite Hgen. cbn [find].
    rewrite (Hthr d float_0_3 (Qle_refl _)). reflexivity.
  - rewrite Hgen. cbn [find]. rewrite (Hhigh d Htier). reflexivity.
Qed.

Lemma disease_level_threshold_witness :
  SeverityManager.generate_urgency_alert Sample.manager ["toux"]
    [("Grippe aviaire", float_0_3); ("Grippe", 9 # 10);
     ("aviaire", float_0_31); ("Grippe aviaire", 1)]
  = advisory_text "aviaire".
Proof.
  exact (proj1 (disease_level_threshold Sample.manager ["toux"]
                  [("Grippe aviaire", float_0_3); ("Grippe", 9 # 10);
                   ("aviaire", float_0_31); ("Grippe aviaire", 1)]
                  eq_refl)).
Defined.

(** C6.  When no file exists at the path, constructing the predictor
    raises [FileNotFoundError], while constructing the severity manager
    succeeds with an empty [disease_data], so that [get_disease_severity]
    answers "inconnue" (unknown) for every disease name. *)
Theorem missing_knowledge_base `{Sklearn} (data_path : str) (w : world) :
  files w data_path = None ->
  (exists e, fst (DiseasePredictor.init data_path w) = Raise e /\
             kind e = FileNotFoundError) /\
  (exists self, fst (SeverityManager.init data_path w) = Ok self /\
                SeverityManager.disease_data self = [] /\
                forall disease,
                  SeverityManager.get_disease_severity self disease
                  = "inconnue").
Proof.
  intros Hmissing. split.
  - unfold DiseasePredictor.init, bind, os_path_exists. rewrite Hmissing.
    simpl. eexists. split; reflexivity.
  - unfold SeverityManager.init, bind, try_except, open_json_load.
    rewrite Hmissing. simpl. eexists. split; [reflexivity |].
    split; reflexivity.
Qed.

Lemma missing_knowledge_base_witness :
  (exists e, fst (@DiseasePredictor.init Sample.sklearn "absent.json"
                    Sample.world0) = Raise e /\
             kind e = FileNotFoundError) /\
  (exists self, fst (SeverityManager.init "absent.json" Sample.world0)
                = Ok self /\
                SeverityManager.disease_data self = [] /\
                forall disease,
                  SeverityManager.get_disease_severity self disease
                  = "inconnue").
Proof.
  apply (@missing_knowledge_base Sample.sklearn "absent.json" Sample.world0).
  reflexivity.
Defined.




(** C9.  The empty query is contained in every stored name, so on a
    non-empty knowledge base [get_disease_severity] answers it with the
    severity of the first disease (its "severity" field when it has one),
    not by the no-match fallback.  In general the first entry, in the
    order of the knowledge base, whose name contains the query decides,
    whatever follows it. *)
Theorem get_disease_severity_first_match (self : SeverityManager.t) :
  (forall name, str_contains (lower "") (lower name) = true) /\
  (forall name data rest,
      SeverityManager.disease_data self = (name, data) :: rest ->
      SeverityManager.get_disease_severity self ""
      = SeverityManager.get_severity data /\
      (forall tier, severity data = Some tier ->
                    SeverityManager.get_disease_severity self "" = tier)) /\
  (forall disease before name data after,
      SeverityManager.disease_data self = before ++ (name, data) :: after ->
      str_contains (lower disease) (lower name) = true ->
      (forall n d, In (n, d) before ->
                   str_contains (lower disease) (lower n) = false) ->
      SeverityManager.get_disease_severity self disease
      = SeverityManager.get_severity data).
Proof.
  split; [intros name; apply str_contains_empty |]. split.
  - intros name data rest Hdata.
    assert (E : SeverityManager.get_disease_severity self ""
                = SeverityManager.get_severity data).
    { unfold SeverityManager.get_disease_severity, items. rewrite Hdata.
      cbn [SeverityManager.severity_lookup].
      rewrite lower_empty, str_contains_empty. reflexivity. }
    split; [exact E |].
    intros tier Htier. rewrite E. unfold SeverityManager.get_severity.
    rewrite Htier. reflexivity.
  - intros disease before name data after Hdata Hname Hbefore.
    unfold SeverityManager.get_disease_severity, items. rewrite Hdata.
    apply severity_lookup_first; assumption.
Qed.

Lemma get_disease_severity_first_match_witness :
  SeverityManager.get_disease_severity Sample.manager "" = "modérée" /\
  SeverityManager.get_disease_severity Sample.manager "GRIPPE" = "modérée".
Proof.
  split.
  - apply (proj2 (proj1 (proj2 (get_disease_severity_first_match
                                  Sample.manager))
                    "Grippe" (Sample.record ["fièvre"; "toux"] "modérée")
                    (tl (json_object Sample.members)) eq_refl)
             "modérée" eq_refl).
  - apply (proj2 (proj2 (get_disease_severity_first_match Sample.manager))
             "GRIPPE" [] "Grippe"
             (Sample.record ["fièvre"; "toux"] "modérée")
             (tl (json_object Sample.members))).
    + reflexivity.
    + reflexivity.
    + intros n d [].
Defined.

(* ===================================================================== *)
(** ** Properties of the symptom extractor *)
(* ===================================================================== *)

Lemma list_set_In (x : str) (l : list str) :
  In x (NLPProcessor.list_set l) -> In x l.
Proof.
  induction l as [|y l IH]; simpl; [tauto |].
  destruct (str_in_list y l); simpl; intuition.
Qed.



(** [preprocess_text] and [extract_symptoms] on a string, by the answer of
    the pipeline. *)
Lemma preprocess_text_empty `{NlpEnv} (s : str) :
  len s = 0%nat -> NLPProcessor.preprocess_text (PyStr s) = Ok [].
Proof.
  intros Hlen. unfold NLPProcessor.preprocess_text. simpl truthy.
  rewrite Hlen. reflexivity.
Qed.


(** What [extract_symptoms] returns for a non-empty string that the
    pipeline accepts. *)
Lemma extract_symptoms_str `{NlpEnv} (s : str) (tokens : list str) :
  len s <> 0%nat ->
  NLPProcessor.preprocess_text (PyStr s) = Ok tokens ->
  NLPProcessor.extract_symptoms (PyStr s) =
  Ok (NLPProcessor.list_set
        (NLPProcessor.regex_matches (lower s)
           (NLPProcessor.term_matches tokens
              (NLPProcessor.token_matches tokens
                 (NLPProcessor.direct_matches (lower s) []))))).
Proof.
  intros Hlen Hpre. unfold NLPProcessor.extract_symptoms. simpl truthy.
  apply Nat.eqb_neq in Hlen. rewrite Hlen. cbn [negb].
  rewrite Hpre. reflexivity.
Qed.

Lemma extract_symptoms_str_raise `{NlpEnv} (s : str) (e : exn) :
  len s <> 0%nat ->
  NLPProcessor.preprocess_text (PyStr s) = Raise e ->
  NLPProcessor.extract_symptoms (PyStr s) = Raise e.
Proof.
  intros Hlen Hpre. unfold NLPProcessor.extract_symptoms. simpl truthy.
  apply Nat.eqb_neq in Hlen. rewrite Hlen. cbn [negb].
  rewrite Hpre. reflexivity.
Qed.

(** On a text of more than 1,000,000 characters the sample pipeline raises,
    as spaCy does, and [extract_symptoms] lets the exception through. *)
Lemma pipeline_refuses_long_text (s : str) :
  (1000000 < N.of_nat (len s))%N ->
  Sample.pipeline s
  = Raise (Exn ValueError "[E088] Text exceeds maximum of 1000000").
Proof.
  intros Hlong. unfold Sample.pipeline.
  apply N.ltb_lt in Hlong. rewrite Hlong. reflexivity.
Qed.



(** On the sample tokenizer: a sentence, pure whitespace, the empty string
    and [None]. *)
Example extract_symptoms_sample :
  @NLPProcessor.extract_symptoms Sample.env
     (PyStr "J'ai mal de gorge et de la fièvre")
  = Ok ["mal de gorge"; "fièvre"; "mal"; "gorge"]
  /\ @NLPProcessor.extract_symptoms Sample.env (PyStr "   ") = Ok []
  /\ @NLPProcessor.extract_symptoms Sample.env (PyStr "") = Ok []
  /\ @NLPProcessor.extract_symptoms Sample.env PyNone = Ok [].
Proof. repeat split; vm_compute; reflexivity. Qed.

(* ===================================================================== *)
(** ** Loops that append labels *)
(* ===================================================================== *)

(** The four passes of [extract_symptoms] are loops that may append one
    label per element.  [want e] says that the element asks for its label
    [lab e]; a pass never removes a label, adds only wanted labels, and
    leaves a wanted label present. *)
Section AppendLoop.

Context {E : Type} (step : list str -> E -> list str)
        (lab : E -> str) (want : E -> bool).

Hypothesis step_keeps : forall acc e x, In x acc -> In x (step acc e).
Hypothesis step_new :
  forall acc e x, In x (step acc e) -> In x acc \/ (want e = true /\ x = lab e).
Hypothesis step_adds : forall acc e, want e = true -> In (lab e) (step acc e).

Lemma loop_keeps (l : list E) (acc : list str) (x : str) :
  In x acc -> In x (fold_left step l acc).
Proof.
  revert acc. induction l as [|e l IH]; simpl; intros acc H; [exact H |].
  apply IH, step_keeps, H.
Qed.

Lemma loop_new (l : list E) (acc : list str) (x : str) :
  In x (fold_left step l acc) ->
  In x acc \/ exists e, In e l /\ want e = true /\ x = lab e.
Proof.
  revert acc. induction l as [|e l IH]; simpl; intros acc H; [left; exact H |].
  apply IH in H as [H | (e' & He' & Hw & Hx)].
  - apply step_new in H as [H | [Hw Hx]]; [left; exact H |].
    right. exists e. auto.
  - right. exists e'. auto.
Qed.

Lemma loop_adds (l : list E) (acc : list str) (e : E) :
  In e l -> want e = true -> In (lab e) (fold_left step l acc).
Proof.
  revert acc. induction l as [|e' l IH]; simpl; intros acc Hin Hw; [contradiction |].
  destruct Hin as [-> | Hin].
  - apply loop_keeps, step_adds, Hw.
  - apply IH; assumption.
Qed.

End AppendLoop.

Lemma In_snoc {A} (x y : A) (l : list A) : In x (l ++ [y]) <-> In x l \/ x = y.
Proof.
  rewrite in_app_iff. simpl. intuition congruence.
Qed.

(** A pass of the shape "if wanted and not yet present, append". *)
Lemma guarded_step_keeps (acc : list str) (cond : bool) (label x : str) :
  In x acc -> In x (if cond then acc ++ [label] else acc).
Proof.
  intros H. destruct cond; [apply In_snoc; left |]; exact H.
Qed.

Lemma guarded_step_new (acc : list str) (cond : bool) (label x : str) :
  In x (if cond then acc ++ [label] else acc) ->
  In x acc \/ (cond = true /\ x = label).
Proof.
  destruct cond; [| left; assumption].
  intros Hx. apply In_snoc in Hx as [Hx | ->]; [left; exact Hx | right].
  split; reflexivity.
Qed.

Lemma list_set_complete (x : str) (l : list str) :
  In x l -> In x (NLPProcessor.list_set l).
Proof.
  induction l as [|y l IH]; simpl; [tauto |].
  intros [-> | H].
  - destruct (str_in_list x l) eqn:E; [| left; reflexivity].
    apply IH. apply str_in_list_In. exact E.
  - destruct (str_in_list y l); [| right]; apply IH, H.
Qed.

(** *** The four passes *)

Lemma fold_left_ext {A B} (f g : A -> B -> A) (l : list B) (a : A) :
  (forall x y, f x y = g x y) -> fold_left f l a = fold_left g l a.
Proof.
  intros E. revert a. induction l as [|y l IH]; simpl; intros a; [reflexivity |].
  rewrite E. apply IH.
Qed.

Lemma direct_matches_loop (tl : str) (acc : list str) :
  NLPProcessor.direct_matches tl acc
  = fold_left (direct_step tl) (keys NLPProcessor.medical_patterns) acc.
Proof.
  unfold NLPProcessor.direct_matches. apply fold_left_ext.
  intros a p. reflexivity.
Qed.

Lemma token_matches_loop (tokens acc : list str) :
  NLPProcessor.token_matches tokens acc
  = fold_left (token_step tokens) (items NLPProcessor.medical_patterns) acc.
Proof.
  unfold NLPProcessor.token_matches. apply fold_left_ext.
  intros a [p k]. reflexivity.
Qed.

Lemma term_matches_loop (tokens acc : list str) :
  NLPProcessor.term_matches tokens acc = fold_left term_step tokens acc.
Proof.
  unfold NLPProcessor.term_matches. apply fold_left_ext.
  intros a t. reflexivity.
Qed.

Lemma regex_matches_loop `{NlpEnv} (tl : str) (acc : list str) :
  NLPProcessor.regex_matches tl acc
  = fold_left (regex_step tl) (items NLPProcessor.regex_patterns) acc.
Proof.
  unfold NLPProcessor.regex_matches. apply fold_left_ext.
  intros a [p s]. reflexivity.
Qed.

Lemma direct_step_keeps (tl : str) (acc : list str) (p x : str) :
  In x acc -> In x (direct_step tl acc p).
Proof. apply guarded_step_keeps. Qed.

Lemma direct_step_new (tl : str) (acc : list str) (p x : str) :
  In x (direct_step tl acc p) ->
  In x acc \/ (wants_direct tl p = true /\ x = p).
Proof. apply guarded_step_new. Qed.

Lemma direct_step_adds (tl : str) (acc : list str) (p : str) :
  wants_direct tl p = true -> In p (direct_step tl acc p).
Proof.
  unfold wants_direct, direct_step. intros ->. apply In_snoc. right; reflexivity.
Qed.

Lemma token_step_keeps (tokens acc : list str) (e : str * list str) (x : str) :
  In x acc -> In x (token_step tokens acc e).
Proof.
  intros Hx. unfold token_step.
  destruct (negb (str_in_list (fst e) acc)); [| exact Hx].
  apply guarded_step_keeps, Hx.
Qed.

Lemma token_step_new (tokens acc : list str) (e : str * list str) (x : str) :
  In x (token_step tokens acc e) ->
  In x acc \/ (wants_tokens tokens e = true /\ x = fst e).
Proof.
  unfold token_step.
  destruct (negb (str_in_list (fst e) acc)); [| left; assumption].
  apply guarded_step_new.
Qed.

Lemma token_step_adds (tokens acc : list str) (e : str * list str) :
  wants_tokens tokens e = true -> In (fst e) (token_step tokens acc e).
Proof.
  intros Hw. unfold token_step. rewrite Hw.
  destruct (str_in_list (fst e) acc) eqn:Ein; cbn [negb].
  - apply str_in_list_In, Ein.
  - apply In_snoc. right; reflexivity.
Qed.

Lemma term_step_keeps (acc : list str) (t x : str) :
  In x acc -> In x (term_step acc t).
Proof.
  intros Hx. unfold term_step.
  destruct (str_in_list t NLPProcessor.medical_terms); [| exact Hx].
  apply guarded_step_keeps, Hx.
Qed.

Lemma term_step_new (acc : list str) (t x : str) :
  In x (term_step acc t) ->
  In x acc \/
  (wants_term t = true /\ x = NLPProcessor.get_symptom_name_from_token t).
Proof.
  unfold term_step, wants_term.
  destruct (str_in_list t NLPProcessor.medical_terms); [| left; assumption].
  intros Hx. apply guarded_step_new in Hx as [Hx | [Hc ->]]; [left; exact Hx |].
  right. apply andb_true_iff in Hc as [Hc _]. rewrite Hc. split; reflexivity.
Qed.

Lemma term_step_adds (acc : list str) (t : str) :
  wants_term t = true ->
  In (NLPProcessor.get_symptom_name_from_token t) (term_step acc t).
Proof.
  unfold wants_term, term_step. intros Hw.
  apply andb_true_iff in Hw as [Hterm Hlen]. rewrite Hterm, Hlen.
  destruct (str_in_list (NLPProcessor.get_symptom_name_from_token t) acc)
    eqn:Ein; cbn [negb andb].
  - apply str_in_list_In, Ein.
  - apply In_snoc. right; reflexivity.
Qed.

Lemma regex_step_keeps `{NlpEnv} (tl : str) (acc : list str) (e : str * str)
  (x : str) :
  In x acc -> In x (regex_step tl acc e).
Proof.
  intros Hx. unfold regex_step.
  destruct (re_search_ignorecase (fst e) tl); [| exact Hx].
  apply guarded_step_keeps, Hx.
Qed.

Lemma regex_step_new `{NlpEnv} (tl : str) (acc : list str) (e : str * str)
  (x : str) :
  In x (regex_step tl acc e) ->
  In x acc \/ (wants_regex tl e = true /\ x = snd e).
Proof.
  unfold regex_step, wants_regex.
  destruct (re_search_ignorecase (fst e) tl); [| left; assumption].
  intros Hx. apply guarded_step_new in Hx as [Hx | [_ ->]]; [left; exact Hx |].
  right. split; reflexivity.
Qed.

Lemma regex_step_adds `{NlpEnv} (tl : str) (acc : list str) (e : str * str) :
  wants_regex tl e = true -> In (snd e) (regex_step tl acc e).
Proof.
  unfold wants_regex, regex_step. intros ->.
  destruct (str_in_list (snd e) acc) eqn:Ein; cbn [negb].
  - apply str_in_list_In, Ein.
  - apply In_snoc. right; reflexivity.
Qed.

Lemma direct_matches_keeps (tl : str) (acc : list str) (x : str) :
  In x acc -> In x (NLPProcessor.direct_matches tl acc).
Proof.
  rewrite direct_matches_loop. apply loop_keeps. apply direct_step_keeps.
Qed.

Lemma direct_matches_adds (tl : str) (acc : list str) (pattern : str) :
  In pattern (keys NLPProcessor.medical_patterns) ->
  str_contains pattern tl = true ->
  In pattern (NLPProcessor.direct_matches tl acc).
Proof.
  intros Hin Hc. rewrite direct_matches_loop.
  apply (loop_adds (direct_step tl) (fun p => p) (wants_direct tl)
           (direct_step_keeps tl) (direct_step_adds tl) _ _ _ Hin Hc).
Qed.

Lemma direct_matches_new (tl : str) (acc : list str) (x : str) :
  In x (NLPProcessor.direct_matches tl acc) ->
  In x acc \/ In x (keys NLPProcessor.medical_patterns).
Proof.
  rewrite direct_matches_loop. intros Hx.
  apply (loop_new (direct_step tl) (fun p => p) (wants_direct tl)
           (direct_step_new tl)) in Hx.
  destruct Hx as [Hx | (e & He & _ & ->)]; [left | right]; assumption.
Qed.

Lemma token_matches_keeps (tokens acc : list str) (x : str) :
  In x acc -> In x (NLPProcessor.token_matches tokens acc).
Proof.
  rewrite token_matches_loop. apply loop_keeps. apply token_step_keeps.
Qed.

Lemma token_matches_adds (tokens acc : list str) (entry : str * list str) :
  In entry NLPProcessor.medical_patterns ->
  wants_tokens tokens entry = true ->
  In (fst entry) (NLPProcessor.token_matches tokens acc).
Proof.
  intros Hin Hw. rewrite token_matches_loop.
  apply (loop_adds (token_step tokens) fst (wants_tokens tokens)
           (token_step_keeps tokens) (token_step_adds tokens) _ _ _ Hin Hw).
Qed.

Lemma token_matches_new (tokens acc : list str) (x : str) :
  In x (NLPProcessor.token_matches tokens acc) ->
  In x acc \/ In x (keys NLPProcessor.medical_patterns).
Proof.
  rewrite token_matches_loop. intros Hx.
  apply (loop_new (token_step tokens) fst (wants_tokens tokens)
           (token_step_new tokens)) in Hx.
  destruct Hx as [Hx | (e & He & _ & ->)]; [left; exact Hx | right].
  apply in_map, He.
Qed.

Lemma term_matches_keeps (tokens acc : list str) (x : str) :
  In x acc -> In x (NLPProcessor.term_matches tokens acc).
Proof.
  rewrite term_matches_loop. apply loop_keeps. apply term_step_keeps.
Qed.

Lemma term_matches_adds (tokens acc : list str) (token : str) :
  In token tokens -> wants_term token = true ->
  In (NLPProcessor.get_symptom_name_from_token token)
     (NLPProcessor.term_matches tokens acc).
Proof.
  intros Hin Hw. rewrite term_matches_loop.
  apply (loop_adds term_step NLPProcessor.get_symptom_name_from_token
           wants_term term_step_keeps term_step_adds _ _ _ Hin Hw).
Qed.

Lemma term_matches_new (tokens acc : list str) (x : str) :
  In x (NLPProcessor.term_matches tokens acc) ->
  In x acc \/
  In x (map NLPProcessor.get_symptom_name_from_token NLPProcessor.medical_terms).
Proof.
  rewrite term_matches_loop. intros Hx.
  apply (loop_new term_step NLPProcessor.get_symptom_name_from_token
           wants_term term_step_new) in Hx.
  destruct Hx as [Hx | (t & _ & Hw & ->)]; [left; exact Hx | right].
  apply in_map. unfold wants_term in Hw.
  apply andb_true_iff in Hw as [Hterm _]. apply str_in_list_In, Hterm.
Qed.

Lemma regex_matches_keeps `{NlpEnv} (tl : str) (acc : list str) (x : str) :
  In x acc -> In x (NLPProcessor.regex_matches tl acc).
Proof.
  rewrite regex_matches_loop. apply loop_keeps. apply regex_step_keeps.
Qed.

Lemma regex_matches_adds `{NlpEnv} (tl : str) (acc : list str)
  (entry : str * str) :
  In entry NLPProcessor.regex_patterns ->
  re_search_ignorecase (fst entry) tl = true ->
  In (snd entry) (NLPProcessor.regex_matches tl acc).
Proof.
  intros Hin Hw. rewrite regex_matches_loop.
  apply (loop_adds (regex_step tl) snd (wants_regex tl)
           (regex_step_keeps tl) (regex_step_adds tl) _ _ _ Hin Hw).
Qed.

Lemma regex_matches_new `{NlpEnv} (tl : str) (acc : list str) (x : str) :
  In x (NLPProcessor.regex_matches tl acc) ->
  In x acc \/ In x (map snd NLPProcessor.regex_patterns).
Proof.
  rewrite regex_matches_loop. intros Hx.
  apply (loop_new (regex_step tl) snd (wants_regex tl)
           (regex_step_new tl)) in Hx.
  destruct Hx as [Hx | (e & He & _ & ->)]; [left; exact Hx | right].
  apply in_map, He.
Qed.

(* ===================================================================== *)
(** ** Further properties of the symptom extractor *)
(* ===================================================================== *)

Lemma medical_patterns_nonempty :
  forall entry, In entry NLPProcessor.medical_patterns ->
                len (fst entry) <> 0%nat /\ snd entry <> [].
Proof.
  assert (E : forallb (fun entry : str * list str =>
                         negb (Nat.eqb (len (fst entry)) 0)
                         && negb (Nat.eqb (List.length (snd entry)) 0))
                      NLPProcessor.medical_patterns = true)
    by (vm_compute; reflexivity).
  intros entry Hin. rewrite forallb_forall in E. specialize (E entry Hin).
  apply andb_true_iff in E as [E1 E2].
  apply negb_true_iff, Nat.eqb_neq in E1.
  apply negb_true_iff, Nat.eqb_neq in E2.
  split; [exact E1 |]. intros Hnil. rewrite Hnil in E2. apply E2. reflexivity.
Qed.

Lemma medical_terms_named :
  forall token, In token NLPProcessor.medical_terms -> wants_term token = true.
Proof.
  assert (E : forallb wants_term NLPProcessor.medical_terms = true)
    by (vm_compute; reflexivity).
  intros token Hin. rewrite forallb_forall in E. apply E, Hin.
Qed.

(** Nothing but the empty pattern occurs in the empty string. *)
Lemma str_contains_in_empty (sub s : str) :
  len s = 0%nat -> str_contains sub (lower s) = true -> len sub = 0%nat.
Proof.
  destruct s as [cs], sub as [ps]. unfold len, str_contains, lower; simpl.
  intros Hlen. apply length_zero_iff_nil in Hlen. subst cs. simpl.
  destruct ps; [reflexivity | discriminate].
Qed.

(** X1.  Every label that [extract_symptoms] returns is drawn from a fixed
    vocabulary: a phrase of the catalog, the name of a medical term, or the
    label of a regular expression. *)
Theorem extract_symptoms_vocabulary `{NlpEnv} (text : pyval)
  (labels : list str) :
  NLPProcessor.extract_symptoms text = Ok labels ->
  forall x, In x labels -> In x vocabulary.
Proof.
  intros Hex x Hx.
  destruct (truthy text) eqn:T.
  - destruct text as [| b | z | s | l].
    1, 2, 3, 5:
      unfold NLPProcessor.extract_symptoms, NLPProcessor.preprocess_text in Hex;
      rewrite T in Hex; simpl in Hex; discriminate Hex.
    assert (Hlen : len s <> 0%nat).
    { simpl in T. apply negb_true_iff, Nat.eqb_neq in T. exact T. }
    destruct (NLPProcessor.preprocess_text (PyStr s)) as [tokens | e] eqn:P;
      [| rewrite (extract_symptoms_str_raise s e Hlen P) in Hex;
         discriminate Hex].
    rewrite (extract_symptoms_str s tokens Hlen P) in Hex.
    inversion Hex; subst labels; clear Hex.
    apply list_set_In in Hx. unfold vocabulary. rewrite !in_app_iff.
    apply regex_matches_new in Hx as [Hx | Hx]; [| right; right; exact Hx].
    apply term_matches_new in Hx as [Hx | Hx]; [| right; left; exact Hx].
    apply token_matches_new in Hx as [Hx | Hx]; [| left; exact Hx].
    apply direct_matches_new in Hx as [[] | Hx]. left; exact Hx.
  - unfold NLPProcessor.extract_symptoms in Hex. rewrite T in Hex.
    inversion Hex; subst. contradiction.
Qed.

Lemma extract_symptoms_vocabulary_witness :
  In "mal de gorge" vocabulary /\ In "gorge" vocabulary.
Proof.
  split.
  - apply (@extract_symptoms_vocabulary Sample.env
             (PyStr "J'ai mal de gorge et de la fièvre")
             ["mal de gorge"; "fièvre"; "mal"; "gorge"]).
    + vm_compute. reflexivity.
    + simpl. tauto.
  - apply (@extract_symptoms_vocabulary Sample.env
             (PyStr "J'ai mal de gorge et de la fièvre")
             ["mal de gorge"; "fièvre"; "mal"; "gorge"]).
    + vm_compute. reflexivity.
    + simpl. tauto.
Defined.

(** X2.  When the pipeline accepts the text ([preprocess_text] returns), a
    phrase of the catalog that occurs in the lowercased text is among the
    labels returned. *)
Theorem extract_symptoms_direct `{NlpEnv} (s pattern : str)
  (tokens : list str) :
  NLPProcessor.preprocess_text (PyStr s) = Ok tokens ->
  In pattern (keys NLPProcessor.medical_patterns) ->
  str_contains pattern (lower s) = true ->
  exists labels,
    NLPProcessor.extract_symptoms (PyStr s) = Ok labels /\ In pattern labels.
Proof.
  intros Hpre Hin Hc.
  assert (Hlen : len s <> 0%nat).
  { intros Hz. apply in_map_iff in Hin as (entry & <- & Hentry).
    apply (proj1 (medical_patterns_nonempty entry Hentry)).
    eapply str_contains_in_empty; eassumption. }
  rewrite (extract_symptoms_str s tokens Hlen Hpre).
  eexists. split; [reflexivity |].
  apply list_set_complete, regex_matches_keeps, term_matches_keeps,
    token_matches_keeps, direct_matches_adds; assumption.
Qed.

Lemma extract_symptoms_direct_witness :
  exists labels,
    @NLPProcessor.extract_symptoms Sample.env
       (PyStr "Forte FIÈVRE et Difficulté à Respirer") = Ok labels /\
    In "difficulté à respirer" labels.
Proof.
  apply (@extract_symptoms_direct Sample.env
           "Forte FIÈVRE et Difficulté à Respirer" "difficulté à respirer"
           ["forte"; "fièvre"; "et"; "difficulté"; "respirer"]).
  - vm_compute. reflexivity.
  - vm_compute. tauto.
  - vm_compute. reflexivity.
Defined.

(** X3.  A phrase of the catalog is returned, also when it does not occur
    literally, as soon as each of its keywords occurs inside some token
    that [preprocess_text] kept. *)
Theorem extract_symptoms_keywords `{NlpEnv} (s pattern : str)
  (keywords tokens : list str) :
  NLPProcessor.preprocess_text (PyStr s) = Ok tokens ->
  In (pattern, keywords) NLPProcessor.medical_patterns ->
  (forall keyword,
      In keyword keywords ->
      exists token,
        In token tokens /\ str_contains keyword token = true) ->
  exists labels,
    NLPProcessor.extract_symptoms (PyStr s) = Ok labels /\ In pattern labels.
Proof.
  intros Hpre Hin Hkw.
  destruct (medical_patterns_nonempty _ Hin) as [_ Hne]. simpl in Hne.
  assert (Hlen : len s <> 0%nat).
  { intros Hz. destruct keywords as [|k ks]; [congruence |].
    destruct (Hkw k (or_introl eq_refl)) as (token & Htok & _).
    rewrite (preprocess_text_empty s Hz) in Hpre.
    inversion Hpre; subst tokens. exact Htok. }
  rewrite (extract_symptoms_str s tokens Hlen Hpre).
  eexists. split; [reflexivity |].
  apply list_set_complete, regex_matches_keeps, term_matches_keeps.
  apply (token_matches_adds _ _ (pattern, keywords) Hin).
  unfold wants_tokens. cbn [snd]. apply forallb_forall. intros k Hk.
  apply existsb_exists. exact (Hkw k Hk).
Qed.

Lemma extract_symptoms_keywords_witness :
  exists labels,
    @NLPProcessor.extract_symptoms Sample.env
       (PyStr "la gorge me fait mal") = Ok labels /\
    In "mal de gorge" labels.
Proof.
  apply (@extract_symptoms_keywords Sample.env "la gorge me fait mal"
           "mal de gorge" ["gorge"; "mal"]
           ["la"; "gorge"; "me"; "fait"; "mal"]).
  - vm_compute. reflexivity.
  - vm_compute. tauto.
  - intros keyword [<- | [<- | []]].
    + exists "gorge". split; [vm_compute; tauto | reflexivity].
    + exists "mal". split; [vm_compute; tauto | reflexivity].
Defined.

(** X4.  For every token kept by [preprocess_text] that is one of the
    medical terms, the symptom name of the token is among the labels
    returned. *)
Theorem extract_symptoms_terms `{NlpEnv} (s token : str)
  (tokens : list str) :
  NLPProcessor.preprocess_text (PyStr s) = Ok tokens ->
  In token tokens ->
  In token NLPProcessor.medical_terms ->
  exists labels,
    NLPProcessor.extract_symptoms (PyStr s) = Ok labels /\
    In (NLPProcessor.get_symptom_name_from_token token) labels.
Proof.
  intros Hpre Htok Hterm.
  assert (Hlen : len s <> 0%nat).
  { intros Hz. rewrite (preprocess_text_empty s Hz) in Hpre.
    inversion Hpre; subst tokens. exact Htok. }
  rewrite (extract_symptoms_str s tokens Hlen Hpre).
  eexists. split; [reflexivity |].
  apply list_set_complete, regex_matches_keeps.
  apply term_matches_adds; [exact Htok | apply medical_terms_named, Hterm].
Qed.

Lemma extract_symptoms_terms_witness :
  exists labels,
    @NLPProcessor.extract_symptoms Sample.env
       (PyStr "grosse nausée ce matin") = Ok labels /\
    In "nausées" labels.
Proof.
  apply (@extract_symptoms_terms Sample.env "grosse nausée ce matin" "nausée"
           ["grosse"; "nausée"; "ce"; "matin"]).
  - vm_compute. reflexivity.
  - vm_compute. tauto.
  - vm_compute. tauto.
Defined.

(** X5.  When the pipeline accepts the text ([preprocess_text] returns)
    and a regular expression of the table matches the lowercased, non-empty
    text, its label is among the labels returned. *)
Theorem extract_symptoms_regex `{NlpEnv} (s pattern label : str)
  (tokens : list str) :
  len s <> 0%nat ->
  NLPProcessor.preprocess_text (PyStr s) = Ok tokens ->
  In (pattern, label) NLPProcessor.regex_patterns ->
  re_search_ignorecase pattern (lower s) = true ->
  exists labels,
    NLPProcessor.extract_symptoms (PyStr s) = Ok labels /\ In label labels.
Proof.
  intros Hlen Hpre Hin Hmatch.
  rewrite (extract_symptoms_str s tokens Hlen Hpre).
  eexists. split; [reflexivity |].
  apply list_set_complete.
  apply (regex_matches_adds _ _ (pattern, label) Hin Hmatch).
Qed.

Lemma extract_symptoms_regex_witness :
  exists labels,
    @NLPProcessor.extract_symptoms Sample.env_regex
       (PyStr "Douleur au dos très FORTE") = Ok labels /\
    In "douleur sévère" labels.
Proof.
  apply (@extract_symptoms_regex Sample.env_regex
           "Douleur au dos très FORTE"
           "douleur.*?(forte|sévère|intense)" "douleur sévère"
           ["douleur"; "au"; "dos"; "très"; "forte"]).
  - discriminate.
  - vm_compute. reflexivity.
  - vm_compute. tauto.
  - vm_compute. reflexivity.
Defined.

(** X6.  The extractor does not look at the case of the letters: two texts
    with the same lowercased form give the same result. *)
Theorem extract_symptoms_case_insensitive `{NlpEnv} (a b : str) :
  lower a = lower b ->
  NLPProcessor.extract_symptoms (PyStr a)
  = NLPProcessor.extract_symptoms (PyStr b).
Proof.
  intros E.
  assert (Hlen : len a = len b).
  { unfold len. rewrite <- (length_map lower_char (chars a)),
      <- (length_map lower_char (chars b)).
    change (len (lower a) = len (lower b)). rewrite E. reflexivity. }
  unfold NLPProcessor.extract_symptoms, NLPProcessor.preprocess_text.
  simpl truthy. simpl isinstance_str. simpl method_lower.
  rewrite Hlen, E. reflexivity.
Qed.

Lemma extract_symptoms_case_insensitive_witness :
  @NLPProcessor.extract_symptoms Sample.env (PyStr "FIÈVRE et Toux")
  = @NLPProcessor.extract_symptoms Sample.env (PyStr "fièvre ET toux").
Proof.
  apply (@extract_symptoms_case_insensitive Sample.env).
  vm_compute. reflexivity.
Defined.

(** X7.  [get_symptom_name_from_token] is idempotent: the name of a name is
    the name itself (an unmapped token is its own name). *)
Theorem get_symptom_name_from_token_idempotent (token : str) :
  NLPProcessor.get_symptom_name_from_token
    (NLPProcessor.get_symptom_name_from_token token)
  = NLPProcessor.get_symptom_name_from_token token.
Proof.
  unfold NLPProcessor.get_symptom_name_from_token at 2 3.
  unfold NLPProcessor.symptom_map. cbn [NLPProcessor.dict_get].
  repeat match goal with
         | |- context [str_eqb token ?k] =>
             destruct (str_eqb token k) eqn:?; [vm_compute; reflexivity |]
         end.
  unfold NLPProcessor.get_symptom_name_from_token, NLPProcessor.symptom_map.
  cbn [NLPProcessor.dict_get].
  repeat match goal with
         | E : str_eqb token ?k = false |- _ => rewrite E; clear E
         end.
  reflexivity.
Qed.

(* ===================================================================== *)
(** ** Further properties of the disease matcher *)
(* ===================================================================== *)

Lemma StronglySorted_app_inv {A} (R : A -> A -> Prop) (l1 l2 : list A) :
  StronglySorted R (l1 ++ l2) ->
  forall a b, In a l1 -> In b l2 -> R a b.
Proof.
  induction l1 as [|x l1 IH]; simpl; intros Hs a b Ha Hb; [contradiction |].
  inversion Hs as [|? ? Hrest Hall]; subst.
  destruct Ha as [<- | Ha].
  - rewrite Forall_forall in Hall. apply Hall. apply in_or_app. right; exact Hb.
  - apply IH; assumption.
Qed.

Lemma ranked_best (diseases : list str) (row : list Q) (p : str * Q) :
  In p (candidates diseases row) ->
  In p (ranked diseases row) \/
  forall q, In q (ranked diseases row) -> snd p <= snd q.
Proof.
  intros Hp. unfold ranked. fold (candidates diseases row).
  set (sorted := sort_reverse snd (candidates diseases row)).
  assert (Hin : In p sorted).
  { apply (Permutation_in p (Permutation_sym (sort_reverse_perm snd _))), Hp. }
  rewrite <- (firstn_skipn 5 sorted) in Hin.
  apply in_app_or in Hin as [Hin | Hin]; [left; exact Hin | right].
  intros q Hq.
  assert (Hs : StronglySorted (fun a b => snd b <= snd a)
                 (firstn 5 sorted ++ skipn 5 sorted)).
  { rewrite firstn_skipn. apply (sort_reverse_sorted snd). }
  exact (StronglySorted_app_inv _ _ _ Hs q p Hq Hin).
Qed.

Lemma ranked_size (diseases : list str) (row : list Q) :
  List.length (ranked diseases row)
  = Nat.min 5 (List.length (candidates diseases row)).
Proof.
  unfold ranked. fold (candidates diseases row).
  rewrite length_firstn.
  rewrite (Permutation_length (sort_reverse_perm snd _)). reflexivity.
Qed.

(** X8.  When the two library calls succeed, the result holds the best of
    the pairs that pass the floor: it has 5 entries, or all of them when
    there are fewer; a pair that passes the floor and is left out has a
    score no greater than any score reported. *)
Theorem predict_diseases_keeps_best `{Sklearn} (self : DiseasePredictor.t)
  (user_symptoms : list str) (w : world) (user_vector : sk_matrix)
  (row : list Q) (rows : list (list Q)) :
  user_symptoms <> [] ->
  transform (DiseasePredictor.vectorizer self) [join " " user_symptoms]
    = Ok user_vector ->
  cosine_similarity user_vector (DiseasePredictor.symptom_vectors self)
    = Ok (row :: rows) ->
  exists out,
    fst (DiseasePredictor.predict_diseases self user_symptoms w) = Ok out /\
    List.length out
    = Nat.min 5 (List.length
                   (candidates (DiseasePredictor.diseases self) row)) /\
    (forall p, In p (candidates (DiseasePredictor.diseases self) row) ->
               In p out \/ forall q, In q out -> snd p <= snd q).
Proof.
  intros Hne Ht Hc. destruct user_symptoms as [|s rest]; [congruence |].
  exists (ranked (DiseasePredictor.diseases self) row).
  rewrite predict_diseases_value, Ht, Hc.
  split; [reflexivity |]. split; [apply ranked_size |].
  intros p. apply ranked_best.
Qed.

Lemma predict_diseases_keeps_best_witness :
  exists out,
    fst (DiseasePredictor.predict_diseases Sample.predictor
           ["fièvre"; "toux"] Sample.world0) = Ok out /\
    List.length out
    = Nat.min 5 (List.length
                   (candidates (DiseasePredictor.diseases Sample.predictor)
                               [1; 0; 1 # 2; 1 # 2])) /\
    (forall p, In p (candidates (DiseasePredictor.diseases Sample.predictor)
                                [1; 0; 1 # 2; 1 # 2]) ->
               In p out \/ forall q, In q out -> snd p <= snd q).
Proof.
  apply (@predict_diseases_keeps_best Sample.sklearn Sample.predictor
           ["fièvre"; "toux"] Sample.world0 ["fièvre toux"]
           [1; 0; 1 # 2; 1 # 2] []).
  - discriminate.
  - reflexivity.
  - vm_compute. reflexivity.
Defined.

Lemma dict_get_In {V} (d : pydict V) (k : str) (v default : V) :
  NoDup (keys d) -> In (k, v) d -> NLPProcessor.dict_get d k default = v.
Proof.
  induction d as [|[k' v'] d IH]; simpl; intros Hnd Hin; [contradiction |].
  inversion Hnd as [|? ? Hk' Hd]; subst.
  destruct Hin as [E | Hin].
  - inversion E; subst. rewrite str_eqb_refl. reflexivity.
  - destruct (str_eqb k k') eqn:E.
    + apply str_eqb_eq in E. subst k'. exfalso. apply Hk'.
      apply in_map_iff. exists (k, v). split; [reflexivity | exact Hin].
    + apply IH; assumption.
Qed.

Lemma dict_get_missing {V} (d : pydict V) (k : str) (default : V) :
  ~ In k (keys d) -> NLPProcessor.dict_get d k default = default.
Proof.
  induction d as [|[k' v'] d IH]; simpl; intros Hk; [reflexivity |].
  destruct (str_eqb k k') eqn:E.
  - apply str_eqb_eq in E. subst. exfalso. apply Hk. left; reflexivity.
  - apply IH. intros Hin. apply Hk. right; exact Hin.
Qed.

Lemma In_keys_entry {V} (d : pydict V) (k : str) :
  In k (keys d) -> exists v, In (k, v) d.
Proof.
  intros Hk. apply in_map_iff in Hk as ([k' v] & E & Hin).
  simpl in E; subst. exists v. exact Hin.
Qed.

(** The constructor keeps the loaded dictionary, whose keys are distinct. *)
Lemma init_disease_data `{Sklearn} (data_path : str) (w w' : world)
  (self : DiseasePredictor.t) :
  DiseasePredictor.init data_path w = (Ok self, w') ->
  exists members,
    files w data_path = Some (JsonObject members) /\
    DiseasePredictor.disease_data self = json_object members /\
    DiseasePredictor.symptom_descriptions self
    = map (fun entry => join " " (DiseasePredictor.get_symptoms (snd entry)))
          (json_object members) /\
    w' = World (files w) (stdout w)
               (sk_calls w ++
                [CallFitTransform
                   (DiseasePredictor.symptom_descriptions self)]).
Proof.
  unfold DiseasePredictor.init, bind, os_path_exists.
  destruct (files w data_path) as [body |] eqn:F; simpl;
    [| intros E; discriminate].
  unfold open_json_load. rewrite F.
  destruct body as [| members]; [intros E; discriminate |].
  unfold sk_lift, ret.
  match goal with
  | |- context [fit_transform ?docs] =>
      destruct (fit_transform docs) as [fitted | e]
  end; intros E; [| discriminate].
  inversion E; subst; simpl. exists members.
  repeat split; reflexivity.
Qed.

(** X9.  On a predictor that the constructor built, [get_disease_info]
    answers every name that [predict_diseases] reports with the entry
    stored under that name, never with the empty default; a name that is no
    key gets the empty default. *)
Theorem predicted_disease_has_info `{Sklearn} (data_path : str)
  (w0 w1 : world) (self : DiseasePredictor.t) (user_symptoms : list str)
  (w : world) (out : list (str * Q)) :
  DiseasePredictor.init data_path w0 = (Ok self, w1) ->
  fst (DiseasePredictor.predict_diseases self user_symptoms w) = Ok out ->
  (forall d s,
      In (d, s) out ->
      In (d, DiseasePredictor.get_disease_info self d)
         (DiseasePredictor.disease_data self)) /\
  (forall name,
      ~ In name (DiseasePredictor.get_all_diseases self) ->
      DiseasePredictor.get_disease_info self name
      = DiseasePredictor.empty_record).
Proof.
  intros Hinit Hout.
  destruct (init_diseases _ _ _ _ Hinit) as [Hkeys Hnodup].
  split.
  - intros d s Hin.
    assert (Hd : In d (DiseasePredictor.diseases self)).
    { destruct (predict_diseases_cases self user_symptoms w)
        as [E | (X & row & rows & _ & E)]; rewrite E in Hout;
        inversion Hout; subst; clear Hout; [contradiction |].
      apply ranked_In in Hin. apply Hin. }
    rewrite Hkeys in Hd, Hnodup.
    destruct (In_keys_entry _ _ Hd) as [v Hv].
    unfold DiseasePredictor.get_disease_info.
    rewrite (dict_get_In _ _ v _ Hnodup Hv). exact Hv.
  - intros name Hname. unfold DiseasePredictor.get_disease_info.
    apply dict_get_missing. unfold DiseasePredictor.get_all_diseases in Hname.
    rewrite <- Hkeys. exact Hname.
Qed.

Lemma predicted_disease_has_info_witness :
  In ("Grippe aviaire",
      DiseasePredictor.get_disease_info Sample.predictor "Grippe aviaire")
     (DiseasePredictor.disease_data Sample.predictor).
Proof.
  apply (proj1 (@predicted_disease_has_info Sample.sklearn
                  Sample.kb_path Sample.world0
                  (snd (@DiseasePredictor.init Sample.sklearn Sample.kb_path
                          Sample.world0))
                  Sample.predictor ["fièvre"; "toux"] Sample.world0
                  [("Grippe", 1); ("Angine", 1 # 2); ("Grippe aviaire", 1 # 2)]
                  eq_refl eq_refl)
           "Grippe aviaire" (1 # 2)).
  simpl. tauto.
Defined.

Lemma json_object_keys {V} (members : list (str * V)) (k : str) :
  In k (keys (json_object members)) <-> In k (map fst members).
Proof.
  unfold json_object.
  assert (G : forall d : pydict V,
            In k (keys (fold_left (fun d kv => dict_set (fst kv) (snd kv) d)
                                  members d))
            <-> In k (keys d) \/ In k (map fst members)).
  { induction members as [|[k' v'] ms IH]; simpl; intros d; [tauto |].
    rewrite IH, keys_dict_set.
    destruct (str_in_list k' (keys d)) eqn:E.
    - apply str_in_list_In in E. split; [tauto |].
      intros [H | [<- | H]]; tauto.
    - rewrite In_snoc. split; [intros [[H | ->] | H]; tauto |].
      intros [H | [<- | H]]; tauto. }
  rewrite G. simpl. tauto.
Qed.

(** X10.  After a successful construction, [get_all_diseases] lists the
    member names of the JSON object, each name once (also when the file
    repeats a name), and there is one symptom description per disease. *)
Theorem get_all_diseases_lists_members `{Sklearn} (data_path : str)
  (w0 w1 : world) (self : DiseasePredictor.t)
  (members : list (str * DiseaseRecord)) :
  DiseasePredictor.init data_path w0 = (Ok self, w1) ->
  files w0 data_path = Some (JsonObject members) ->
  NoDup (DiseasePredictor.get_all_diseases self) /\
  (forall d, In d (DiseasePredictor.get_all_diseases self)
             <-> In d (map fst members)) /\
  List.length (DiseasePredictor.symptom_descriptions self)
  = List.length (DiseasePredictor.get_all_diseases self).
Proof.
  intros Hinit Hfile.
  destruct (init_diseases _ _ _ _ Hinit) as [Hkeys Hnodup].
  destruct (init_disease_data _ _ _ _ Hinit) as (ms & Hms & Hdata & Hdesc & _).
  rewrite Hfile in Hms. inversion Hms; subst ms; clear Hms.
  unfold DiseasePredictor.get_all_diseases.
  split; [exact Hnodup |]. split.
  - intros d. rewrite Hkeys, Hdata. apply json_object_keys.
  - rewrite Hdesc, Hkeys, Hdata. unfold keys. rewrite !length_map. reflexivity.
Qed.

Lemma get_all_diseases_lists_members_witness :
  NoDup (DiseasePredictor.get_all_diseases Sample.predictor) /\
  (forall d, In d (DiseasePredictor.get_all_diseases Sample.predictor)
             <-> In d (map fst Sample.members)) /\
  List.length (DiseasePredictor.symptom_descriptions Sample.predictor)
  = List.length (DiseasePredictor.get_all_diseases Sample.predictor).
Proof.
  apply (@get_all_diseases_lists_members Sample.sklearn Sample.kb_path
           Sample.world0
           (snd (@DiseasePredictor.init Sample.sklearn Sample.kb_path
                   Sample.world0))
           Sample.predictor Sample.members).
  - reflexivity.
  - reflexivity.
Defined.

(** X11.  A call on a non-empty list never changes the files.  When both
    library calls succeed it prints nothing and has made exactly the calls
    [transform] and [cosine_similarity]; when [transform] raises, it prints
    one line that carries the message of the exception, and
    [cosine_similarity] is not called. *)
Theorem predict_diseases_effects `{Sklearn} (self : DiseasePredictor.t)
  (user_symptoms : list str) (w : world) :
  user_symptoms <> [] ->
  let w' := snd (DiseasePredictor.predict_diseases self user_symptoms w) in
  let user_text := join " " user_symptoms in
  files w' = files w /\
  (forall user_vector rows,
      transform (DiseasePredictor.vectorizer self) [user_text]
        = Ok user_vector ->
      cosine_similarity user_vector (DiseasePredictor.symptom_vectors self)
        = Ok rows ->
      rows <> [] ->
      stdout w' = stdout w /\
      sk_calls w'
      = sk_calls w ++ [CallTransform [user_text]; CallCosineSimilarity]) /\
  (forall e,
      transform (DiseasePredictor.vectorizer self) [user_text] = Raise e ->
      stdout w'
      = stdout w ++ ["Erreur lors de la prédiction: " +s+ message e] /\
      sk_calls w' = sk_calls w ++ [CallTransform [user_text]]).
Proof.
  intros Hne. destruct user_symptoms as [|s rest]; [congruence |].
  unfold DiseasePredictor.predict_diseases, try_except, bind, sk_lift, print,
    ret.
  split; [| split].
  - destruct (transform _ _) as [X | e]; [| reflexivity].
    destruct (cosine_similarity _ _) as [[| row rows] | e]; reflexivity.
  - intros X rows Ht Hc Hrows. rewrite Ht. cbn [fst snd]. rewrite Hc.
    destruct rows as [| row rows]; [congruence |]. simpl.
    rewrite <- app_assoc. split; reflexivity.
  - intros e Ht. rewrite Ht. simpl. split; reflexivity.
Qed.

Lemma predict_diseases_effects_witness :
  stdout (snd (DiseasePredictor.predict_diseases Sample.predictor [""]
                 Sample.world0))
  = stdout Sample.world0
    ++ ["Erreur lors de la prédiction: "
        +s+ message (Exn ValueError "empty vocabulary")] /\
  sk_calls (snd (DiseasePredictor.predict_diseases Sample.predictor [""]
                   Sample.world0))
  = sk_calls Sample.world0 ++ [CallTransform [join " " [""]]].
Proof.
  apply (proj2 (proj2 (@predict_diseases_effects Sample.sklearn
                         Sample.predictor [""] Sample.world0
                         ltac:(discriminate)))
           (Exn ValueError "empty vocabulary")).
  reflexivity.
Defined.

(** X12.  When the knowledge-base file is not valid JSON, constructing the
    predictor raises [JSONDecodeError] before any call into scikit-learn,
    while constructing the severity manager succeeds: it prints the
    decoding message, keeps an empty [disease_data] and then answers
    "inconnue" for every disease. *)
Theorem malformed_knowledge_base `{Sklearn} (data_path : str) (w : world) :
  files w data_path = Some Malformed ->
  (exists e, DiseasePredictor.init data_path w = (Raise e, w) /\
             kind e = JSONDecodeError) /\
  (exists self,
      SeverityManager.init data_path w
      = (Ok self,
         World (files w)
               (stdout w ++ ["Erreur de décodage JSON dans " +s+ data_path])
               (sk_calls w)) /\
      SeverityManager.disease_data self = [] /\
      forall disease,
        SeverityManager.get_disease_severity self disease = "inconnue").
Proof.
  intros Hfile. split.
  - unfold DiseasePredictor.init, bind, os_path_exists. rewrite Hfile. simpl.
    unfold open_json_load. rewrite Hfile. eexists. split; reflexivity.
  - unfold SeverityManager.init, bind, try_except, open_json_load.
    rewrite Hfile. simpl. eexists. split; [reflexivity |].
    split; reflexivity.
Qed.

Lemma malformed_knowledge_base_witness :
  (exists e,
      @DiseasePredictor.init Sample.sklearn "kb.json"
         (World (fun _ => Some Malformed) [] [])
      = (Raise e, World (fun _ => Some Malformed) [] []) /\
      kind e = JSONDecodeError) /\
  (exists self,
      SeverityManager.init "kb.json" (World (fun _ => Some Malformed) [] [])
      = (Ok self,
         World (fun _ => Some Malformed)
               ([] ++ ["Erreur de décodage JSON dans " +s+ "kb.json"]) []) /\
      SeverityManager.disease_data self = [] /\
      forall disease,
        SeverityManager.get_disease_severity self disease = "inconnue").
Proof.
  apply (@malformed_knowledge_base Sample.sklearn "kb.json"
           (World (fun _ => Some Malformed) [] [])).
  reflexivity.
Defined.

(* ===================================================================== *)
(** ** Further properties of the severity escalator *)
(* ===================================================================== *)

Lemma symptom_alert_not_empty (urgent : list (str * str)) :
  SeverityManager.symptom_alert urgent <> "".
Proof.
  intros E.
  assert (N : nth 0 (chars (SeverityManager.symptom_alert urgent)) 0%N
              = nth 0 (chars "") 0%N) by (rewrite E; reflexivity).
  discriminate N.
Qed.

Lemma disease_alert_not_empty (disease : str) :
  SeverityManager.disease_alert disease <> "".
Proof.
  intros E.
  assert (N : nth 0 (chars (SeverityManager.disease_alert disease)) 0%N
              = nth 0 (chars "") 0%N) by (rewrite E; reflexivity).
  discriminate N.
Qed.

(** X13.  On a constructed manager the alert is the empty string exactly
    when no symptom is urgent and no prediction qualifies: an empty result
    always means that neither check fired. *)
Theorem urgency_alert_empty_iff (data_path : str) (w w' : world)
  (self : SeverityManager.t) (symptoms : list str)
  (predictions : list (str * Q)) :
  SeverityManager.init data_path w = (Ok self, w') ->
  (SeverityManager.generate_urgency_alert self symptoms predictions = ""
   <-> (forall s, In s symptoms -> is_urgent s = false) /\
       (forall ds, In ds predictions -> qualifies self ds = false)).
Proof.
  intros Hinit. apply severity_init_table in Hinit.
  unfold SeverityManager.generate_urgency_alert.
  rewrite (check_symptom_severity_filter self symptoms Hinit).
  destruct (filter is_urgent symptoms) as [|u us] eqn:F; cbn [map].
  - rewrite disease_level_alert_find.
    assert (Hs : forall s, In s symptoms -> is_urgent s = false).
    { intros s Hin. destruct (is_urgent s) eqn:U; [| reflexivity].
      assert (Hf : In s (filter is_urgent symptoms))
        by (apply filter_In; auto).
      rewrite F in Hf. contradiction. }
    destruct (find (qualifies self) predictions) as [ds |] eqn:Fd.
    + split.
      * intros E. exfalso. exact (disease_alert_not_empty _ E).
      * intros [_ Hq]. apply find_some in Fd as [Hin Hds].
        rewrite (Hq ds Hin) in Hds. discriminate.
    + split; [| reflexivity]. intros _. split; [exact Hs |].
      intros ds Hin. exact (find_none _ _ Fd ds Hin).
  - split.
    + intros E. exfalso. exact (symptom_alert_not_empty _ E).
    + intros [Hs _]. exfalso.
      assert (Hu : In u (filter is_urgent symptoms))
        by (rewrite F; left; reflexivity).
      apply filter_In in Hu as [Hin Hu]. rewrite (Hs u Hin) in Hu.
      discriminate.
Qed.

Lemma urgency_alert_empty_iff_witness :
  SeverityManager.generate_urgency_alert Sample.manager ["toux"; "fièvre"]
    [("Grippe aviaire", float_0_3); ("Grippe", 9 # 10)] = "".
Proof.
  apply (proj2 (urgency_alert_empty_iff Sample.kb_path Sample.world0
                  Sample.world0 Sample.manager ["toux"; "fièvre"]
                  [("Grippe aviaire", float_0_3); ("Grippe", 9 # 10)] eq_refl)).
  split.
  - intros s [<- | [<- | []]]; reflexivity.
  - intros ds [<- | [<- | []]]; reflexivity.
Defined.

Lemma str_contains_refl (s : str) : str_contains s s = true.
Proof.
  apply chars_contains_app. exists [], []. rewrite app_nil_r. reflexivity.
Qed.

(** The severity manager keeps the dictionary loaded from a valid file. *)
Lemma severity_init_data (data_path : str) (w w' : world)
  (self : SeverityManager.t) (members : list (str * DiseaseRecord)) :
  SeverityManager.init data_path w = (Ok self, w') ->
  files w data_path = Some (JsonObject members) ->
  SeverityManager.disease_data self = json_object members.
Proof.
  unfold SeverityManager.init, bind, try_except, open_json_load.
  intros Hinit Hfile. rewrite Hfile in Hinit. simpl in Hinit.
  inversion Hinit; subst. reflexivity.
Qed.

(** X14.  For a predictor and a severity manager built from the same file:
    for a stored disease name that no other stored name contains (cases
    ignored), the substring lookup of [get_disease_severity] gives the
    severity of the entry that the exact lookup of [get_disease_info]
    returns. *)
Theorem severity_agrees_with_info `{Sklearn} (data_path : str)
  (wp wp' ws ws' : world) (predictor : DiseasePredictor.t)
  (manager : SeverityManager.t) (name : str) :
  DiseasePredictor.init data_path wp = (Ok predictor, wp') ->
  SeverityManager.init data_path ws = (Ok manager, ws') ->
  files ws data_path = files wp data_path ->
  In name (DiseasePredictor.get_all_diseases predictor) ->
  (forall other,
      In other (DiseasePredictor.get_all_diseases predictor) ->
      other <> name ->
      str_contains (lower name) (lower other) = false) ->
  SeverityManager.get_disease_severity manager name
  = SeverityManager.get_severity
      (DiseasePredictor.get_disease_info predictor name).
Proof.
  intros Hp Hs Hfiles Hname Hothers.
  destruct (init_diseases _ _ _ _ Hp) as [Hkeys Hnodup].
  destruct (init_disease_data _ _ _ _ Hp) as (members & Hfile & Hdata & _).
  rewrite <- Hfiles in Hfile.
  pose proof (severity_init_data _ _ _ _ _ Hs Hfile) as Hsdata.
  unfold DiseasePredictor.get_all_diseases in *.
  rewrite Hkeys, Hdata in Hname, Hothers, Hnodup.
  destruct (In_keys_entry _ _ Hname) as [data Hentry].
  unfold DiseasePredictor.get_disease_info. rewrite Hdata.
  rewrite (dict_get_In _ _ data _ Hnodup Hentry).
  unfold SeverityManager.get_disease_severity, items. rewrite Hsdata.
  destruct (in_split _ _ Hentry) as (before & after & Hsplit).
  rewrite Hsplit. apply severity_lookup_first.
  - apply str_contains_refl.
  - intros n d Hin. apply Hothers.
    + rewrite Hsplit. unfold keys. rewrite map_app, in_app_iff. left.
      apply in_map_iff. exists (n, d). split; [reflexivity | exact Hin].
    + intros ->. rewrite Hsplit in Hnodup. unfold keys in Hnodup.
      rewrite map_app in Hnodup. simpl in Hnodup.
      apply NoDup_remove_2 in Hnodup. apply Hnodup.
      apply in_or_app. left.
      apply in_map_iff. exists (name, d). split; [reflexivity | exact Hin].
Qed.

Lemma severity_agrees_with_info_witness :
  SeverityManager.get_disease_severity Sample.manager "Grippe aviaire"
  = SeverityManager.get_severity
      (DiseasePredictor.get_disease_info Sample.predictor "Grippe aviaire").
Proof.
  apply (@severity_agrees_with_info Sample.sklearn Sample.kb_path
           Sample.world0
           (snd (@DiseasePredictor.init Sample.sklearn Sample.kb_path
                   Sample.world0))
           Sample.world0 Sample.world0 Sample.predictor Sample.manager
           "Grippe aviaire").
  - reflexivity.
  - reflexivity.
  - reflexivity.
  - vm_compute. tauto.
  - intros other Hin Hneq. vm_compute in Hin.
    destruct Hin as [<- | [<- | [<- | [<- | []]]]];
      try reflexivity.
    exfalso. apply Hneq. reflexivity.
Defined.

(* ===================================================================== *)
(** ** The extractor and the alert together *)
(* ===================================================================== *)

(** X16.  With a constructed severity manager, a text that the pipeline
    accepts and whose lowercased form contains a phrase of the catalog that
    is urgent (such as "difficulté à respirer"): [extract_symptoms] returns
    labels among which the phrase is, and on these labels
    [generate_urgency_alert] returns, whatever the predictions, the
    symptom-level directive, word for word; the text is not empty and holds
    the line of the phrase. *)
Theorem urgent_text_alert `{NlpEnv} (data_path : str) (w0 w1 : world)
  (severity_manager : SeverityManager.t) (s pattern : str)
  (tokens : list str) :
  SeverityManager.init data_path w0 = (Ok severity_manager, w1) ->
  NLPProcessor.preprocess_text (PyStr s) = Ok tokens ->
  In pattern (keys NLPProcessor.medical_patterns) ->
  is_urgent pattern = true ->
  str_contains pattern (lower s) = true ->
  exists symptoms,
    NLPProcessor.extract_symptoms (PyStr s) = Ok symptoms /\
    In pattern (filter is_urgent symptoms) /\
    forall predictions,
      SeverityManager.generate_urgency_alert severity_manager symptoms
        predictions
      = directive_text (filter is_urgent symptoms) /\
      SeverityManager.generate_urgency_alert severity_manager symptoms
        predictions <> "" /\
      str_contains ("• " +s+ pattern +s+ " (URGENT)")
        (SeverityManager.generate_urgency_alert severity_manager symptoms
           predictions) = true.
Proof.
  intros Hinit Hpre Hin Hurgent Hc. apply severity_init_table in Hinit.
  assert (Hlen : len s <> 0%nat).
  { intros Hz. apply in_map_iff in Hin as (entry & <- & Hentry).
    apply (proj1 (medical_patterns_nonempty entry Hentry)).
    eapply str_contains_in_empty; eassumption. }
  exists (NLPProcessor.list_set
            (NLPProcessor.regex_matches (lower s)
               (NLPProcessor.term_matches tokens
                  (NLPProcessor.token_matches tokens
                     (NLPProcessor.direct_matches (lower s) []))))).
  set (labels := NLPProcessor.list_set _).
  assert (Hlabel : In pattern labels).
  { apply list_set_complete, regex_matches_keeps, term_matches_keeps,
      token_matches_keeps, direct_matches_adds; assumption. }
  assert (Hfound : In pattern (filter is_urgent labels))
    by (apply filter_In; auto).
  split; [apply (extract_symptoms_str s tokens Hlen Hpre) |].
  split; [exact Hfound |].
  intros predictions.
  assert (Htext :
            SeverityManager.generate_urgency_alert severity_manager labels
              predictions
            = directive_text (filter is_urgent labels)).
  { unfold SeverityManager.generate_urgency_alert.
    rewrite (check_symptom_severity_filter severity_manager labels Hinit).
    rewrite <- symptom_alert_text
      by (intros Hnil; rewrite Hnil in Hfound; contradiction).
    destruct (filter is_urgent labels); [contradiction | reflexivity]. }
  rewrite Htext.
  split; [reflexivity |].
  split; [apply directive_text_not_empty |].
  apply directive_text_names, Hfound.
Qed.

Lemma urgent_text_alert_witness :
  exists symptoms,
    @NLPProcessor.extract_symptoms Sample.env
       (PyStr "J'ai une Difficulté à respirer") = Ok symptoms /\
    In "difficulté à respirer" (filter is_urgent symptoms) /\
    forall predictions,
      SeverityManager.generate_urgency_alert Sample.manager symptoms
        predictions
      = directive_text (filter is_urgent symptoms) /\
      SeverityManager.generate_urgency_alert Sample.manager symptoms
        predictions <> "" /\
      str_contains ("• " +s+ "difficulté à respirer" +s+ " (URGENT)")
        (SeverityManager.generate_urgency_alert Sample.manager symptoms
           predictions) = true.
Proof.
  apply (@urgent_text_alert Sample.env Sample.kb_path
           Sample.world0 Sample.world0 Sample.manager
           "J'ai une Difficulté à respirer" "difficulté à respirer"
           ["ai"; "une"; "difficulté"; "respirer"]).
  - reflexivity.
  - vm_compute. reflexivity.
  - vm_compute. tauto.
  - vm_compute. reflexivity.
  - vm_compute. reflexivity.
Defined.

(* ===================================================================== *)
(** ** Properties of app/utils.py *)
(* ===================================================================== *)

Lemma validate_loop_new (symptoms : list pyval) (cleaned : list str) (x : str) :
  In x (fold_left Utils.validate_step symptoms cleaned) ->
  In x cleaned \/
  exists s, In (PyStr s) symptoms /\ x = lower (Utils.strip s) /\
            len x <> 0%nat.
Proof.
  revert cleaned. induction symptoms as [|v symptoms IH]; simpl; intros cleaned H;
    [left; exact H |].
  apply IH in H as [H | (s & Hs & Hx & Hlen)].
  - destruct v as [| b | z | s | l]; simpl in H; try (left; exact H).
    destruct (negb (Nat.eqb (len (lower (Utils.strip s))) 0)) eqn:L;
      simpl in H; [| left; exact H].
    destruct (negb (str_in_list (lower (Utils.strip s)) cleaned));
      simpl in H; [| left; exact H].
    apply In_snoc in H as [H | ->]; [left; exact H | right].
    exists s. split; [left; reflexivity |]. split; [reflexivity |].
    apply negb_true_iff, Nat.eqb_neq in L. exact L.
  - right. exists s. split; [right; exact Hs |]. split; assumption.
Qed.

Lemma validate_loop_NoDup (symptoms : list pyval) (cleaned : list str) :
  NoDup cleaned -> NoDup (fold_left Utils.validate_step symptoms cleaned).
Proof.
  revert cleaned. induction symptoms as [|v symptoms IH]; simpl;
    intros cleaned H; [exact H |].
  apply IH. destruct v as [| b | z | s | l]; simpl; try exact H.
  destruct (negb (Nat.eqb (len (lower (Utils.strip s))) 0)); simpl;
    [| exact H].
  destruct (str_in_list (lower (Utils.strip s)) cleaned) eqn:E; simpl;
    [exact H |].
  apply NoDup_snoc; [exact H |].
  rewrite <- str_in_list_In, E. discriminate.
Qed.

Lemma validate_loop_keeps (symptoms : list pyval) (cleaned : list str)
  (x : str) :
  In x cleaned -> In x (fold_left Utils.validate_step symptoms cleaned).
Proof.
  revert cleaned. induction symptoms as [|v symptoms IH]; simpl;
    intros cleaned H; [exact H |].
  apply IH. destruct v as [| b | z | s | l]; simpl; try exact H.
  apply guarded_step_keeps, H.
Qed.

Lemma validate_loop_adds (symptoms : list pyval) (cleaned : list str)
  (s : str) :
  In (PyStr s) symptoms -> len (lower (Utils.strip s)) <> 0%nat ->
  In (lower (Utils.strip s)) (fold_left Utils.validate_step symptoms cleaned).
Proof.
  revert cleaned. induction symptoms as [|v symptoms IH]; simpl;
    intros cleaned Hin Hlen; [contradiction |].
  destruct Hin as [-> | Hin]; [| apply IH; assumption].
  apply validate_loop_keeps. simpl.
  apply Nat.eqb_neq in Hlen. rewrite Hlen. cbn [negb andb].
  destruct (str_in_list (lower (Utils.strip s)) cleaned) eqn:E; cbn [negb].
  - apply str_in_list_In, E.
  - apply In_snoc. right; reflexivity.
Qed.

(** X17.  [validate_symptoms] returns a list without duplicates and without
    empty strings; a label is in the result exactly when it is the
    stripped, lowercased form of a string of the input and is not empty.
    Values that are not strings are ignored. *)
Theorem validate_symptoms_cleaned (symptoms : list pyval) :
  NoDup (Utils.validate_symptoms symptoms) /\
  (forall x,
      In x (Utils.validate_symptoms symptoms) <->
      (exists s, In (PyStr s) symptoms /\ x = lower (Utils.strip s)) /\
      len x <> 0%nat).
Proof.
  destruct symptoms as [|v rest].
  - split; [constructor |]. intros x. simpl. split; [tauto |].
    intros [(s & [] & _) _].
  - unfold Utils.validate_symptoms. split.
    + apply validate_loop_NoDup. constructor.
    + intros x. split.
      * intros H. apply validate_loop_new in H as [[] | (s & Hs & Hx & Hlen)].
        split; [exists s; auto | exact Hlen].
      * intros [(s & Hs & ->) Hlen]. apply validate_loop_adds; assumption.
Qed.

(** The cleaning of a small list: case, surrounding blanks, a repeated
    label, a blank entry and a number. *)
Example validate_symptoms_sample :
  Utils.validate_symptoms
    [PyStr "  Fièvre "; PyStr "TOUX"; PyInt 3; PyStr "   "; PyStr "fièvre"]
  = ["fièvre"; "toux"].
Proof. vm_compute. reflexivity. Qed.
